(** * The video-ad generation workflow of the front end

    A shallow embedding of [frontend/src/config/api.js] (the transport
    client and the [videoAPI] wrappers) and of the event handlers of
    [frontend/src/components/VideoGenerator.jsx] (the workflow state
    machine), together with the part of [VideoSettings.jsx] that produces
    the settings object.

    Conventions.
    - A JavaScript field that holds a string or is [null]/[undefined] is an
      [option string]; [None] stands for the missing value.  The client
      only ever tests such fields for truthiness.
    - The [status] field is compared with [===] and may come to hold a
      number (the [status] of a [Response] object): it is an
      [option Scalar], and a string literal written where a scalar is
      expected stands for that string.
    - A thrown [Error] is a record of its [name] and [message]; a
      [try]/[catch] is a match on a [Completion].
    - An [async] handler is a script ([Prog]) that runs up to its next
      [await]; the awaited call and the rest of the handler are parked in
      the world until the response event arrives.
    - [console.log] and [console.error] have no effect on the state and
      are left out. *)

From Stdlib Require Import String Ascii List Bool Arith Lia DecimalString.
Import ListNotations.
Open Scope string_scope.

Set Implicit Arguments.

(* ================================================================== *)
(** ** JavaScript values as the client uses them *)
(* ================================================================== *)

Module Js.

(** [!!x] for a field that is a string or missing: only a non-empty
    string is truthy. *)
Definition truthy (x : option string) : bool :=
  match x with
  | Some (String _ _) => true
  | _ => false
  end.

(** [!!b] for a field that is a boolean or missing. *)
Definition truthyb (b : option bool) : bool :=
  match b with
  | Some true => true
  | _ => false
  end.

(** [a || b] where [b] is a string literal. *)
Definition or_else (a : option string) (b : string) : string :=
  match a with
  | Some (String c s) => String c s
  | _ => b
  end.

(** [hay.includes(needle)]. *)
Fixpoint includes (needle hay : string) : bool :=
  if String.prefix needle hay then true
  else match hay with
       | EmptyString => false
       | String _ rest => includes needle rest
       end.

(** [`${n}`] for a non-negative integer. *)
Definition of_nat (n : nat) : string :=
  NilZero.string_of_uint (Nat.to_uint n).

(** A thrown exception object. *)
Record JsError := { name : string; message : string }.

(** [new Error(msg)]. *)
Definition Error (msg : string) : JsError :=
  {| name := "Error"; message := msg |}.

(** The outcome of evaluating a block that may throw. *)
Inductive Completion (A : Type) : Type :=
| Return (a : A)
| Throw (e : JsError).
Arguments Return {A} a.
Arguments Throw {A} e.

Definition nonempty (s : string) : bool :=
  match s with
  | EmptyString => false
  | String _ _ => true
  end.

(** A primitive that is a string or a (non-negative, integral) number. *)
Inductive Scalar :=
| Str (s : string)
| Num (n : nat).
Coercion Str : string >-> Scalar.

(** [a === b] on scalars: values of different types are never equal. *)
Definition Scalar_eqb (a b : Scalar) : bool :=
  match a, b with
  | Str x, Str y => String.eqb x y
  | Num x, Num y => Nat.eqb x y
  | _, _ => false
  end.

(** [a === b] for fields that hold a scalar or are missing. *)
Definition strict_eqb (a b : option Scalar) : bool :=
  match a, b with
  | Some x, Some y => Scalar_eqb x y
  | None, None => true
  | _, _ => false
  end.

End Js.
Import Js.

(* A literal is read against the type expected of it, so that a string
   inside [Some] or a list is taken as a scalar where one is expected. *)
Arguments Some {A} & a.
Arguments cons {A} & a l.
Arguments pair {A B} & a b.

(* ================================================================== *)
(** ** config/api.js *)
(* ================================================================== *)

Module Api.

(** [API_ENDPOINTS]; the base URL is a parameter of [endpoint_url]. *)
Inductive Endpoint :=
| SCRAPE
| GENERATE_SCRIPT
| CREATE_VIDEO
| STATUS (sessionId : string)
| SESSION_DATA (sessionId : string)
| DOWNLOAD (sessionId : string).

Definition endpoint_url (API_BASE_URL : string) (e : Endpoint) : string :=
  match e with
  | SCRAPE => API_BASE_URL ++ "/api/scrape-product"
  | GENERATE_SCRIPT => API_BASE_URL ++ "/api/generate-script"
  | CREATE_VIDEO => API_BASE_URL ++ "/api/create-video"
  | STATUS sid => API_BASE_URL ++ "/api/status/" ++ sid
  | SESSION_DATA sid => API_BASE_URL ++ "/api/session/" ++ sid
  | DOWNLOAD sid => API_BASE_URL ++ "/api/download/" ++ sid
  end.

(** A [FormData] body: the appended fields, in order. *)
Definition FormData := list (string * string).

Record Request := {
  endpoint : Endpoint;
  method : string;
  body : option FormData
}.

(** Modelled from the spec: the shape of the backend's JSON bodies (the
    backend is not among the sources).  Section 6 gives the fields
    [success], [session_id], [product_data], [ad_script], [video_path],
    [status] and [error]; [sessionId] is the camelCase variant that
    [scrapeProduct] also accepts, [detail] and [message] are read from
    error bodies by [apiRequest].  Every field may be missing.  The same
    record gives the properties of these names that the client reads off
    a raw [Response], whose [status] is a number. *)
Record JsonObject := {
  success : option bool;
  session_id : option string;
  sessionId : option string;
  product_data : option string;
  ad_script : option string;
  video_path : option string;
  status : option Scalar;
  error : option string;
  detail : option string;
  message : option string
}.

Inductive JsonValue :=
| JNull
| JObject (o : JsonObject).

(** What [JSON.parse(text)] / [response.json()] gives for a body. *)
Inductive ParseOutcome :=
| SyntaxError (e : JsError)
| Parsed (v : JsonValue).

(** A [Response] as the client reads it.  [text] is [await
    response.text()], [parsed] is the outcome of parsing that same body,
    [content_type] is [response.headers.get('content-type')]. *)
Record Response := {
  http_status : nat;
  statusText : string;
  content_type : option string;
  text : string;
  parsed : ParseOutcome
}.

(** [response.ok]: the status is in the range 200-299. *)
Definition ok (r : Response) : bool :=
  Nat.leb 200 (http_status r) && Nat.leb (http_status r) 299.

(** How [fetch(url, options)] settles. *)
Inductive FetchOutcome :=
| Rejects (e : JsError)
| Responds (r : Response).

(** What [apiRequest] returns: the decoded JSON, or the raw response. *)
Inductive ApiResult :=
| Json (v : JsonValue)
| Raw (r : Response).

(** The properties of a raw [Response] under the names the client reads
    from a result: it has a [status], the numeric HTTP status, and none
    of the other fields. *)
Definition response_object (r : Response) : JsonObject :=
  {| success := None; session_id := None; sessionId := None;
     product_data := None; ad_script := None; video_path := None;
     status := Some (Num (http_status r));
     error := None; detail := None; message := None |}.

(** The fields of a result for property reads: those of the decoded
    object, or those of the [Response] object; reading a property of
    [null] throws. *)
Definition fields (res : ApiResult) : option JsonObject :=
  match res with
  | Json JNull => None
  | Json (JObject o) => Some o
  | Raw r => Some (response_object r)
  end.

(** The [TypeError] of reading property [p] of [null] (V8's wording). *)
Definition null_read (p : string) : JsError :=
  {| Js.name := "TypeError";
     Js.message := "Cannot read properties of null (reading '" ++ p ++ "')" |}.

Definition backend_hint : string :=
  "Unable to connect to the backend. Please make sure the server is running on port 8000.".

(** The message built for a non-2xx response. *)
Definition errorMessage (r : Response) : string :=
  match parsed r with
  | Parsed (JObject errorJson) =>
      match detail errorJson with
      | Some (String c s) => String c s
      | _ => or_else (Api.message errorJson) ("HTTP " ++ of_nat (http_status r))
      end
  | _ =>
      (* JSON.parse threw, or reading [detail] of null threw *)
      match text r with
      | String c s => String c s
      | EmptyString =>
          "HTTP " ++ of_nat (http_status r) ++ ": " ++ statusText r
      end
  end.

(** The [try] block of [apiRequest]. *)
Definition apiRequest_try (o : FetchOutcome) : Completion ApiResult :=
  match o with
  | Rejects e => Throw e
  | Responds response =>
      if negb (ok response) then Throw (Error (errorMessage response))
      else
        match content_type response with
        | Some contentType =>
            if truthy (Some contentType)
               && includes "application/json" contentType
            then match parsed response with
                 | SyntaxError e => Throw e
                 | Parsed jsonData => Return (Json jsonData)
                 end
            else Return (Raw response)
        | None => Return (Raw response)
        end
  end.

(** [apiRequest]: the [catch] block rewrites network errors. *)
Definition apiRequest (o : FetchOutcome) : Completion ApiResult :=
  match apiRequest_try o with
  | Return res => Return res
  | Throw error =>
      if String.eqb (name error) "TypeError"
         && includes "fetch" (Js.message error)
      then Throw (Error backend_hint)
      else Throw error
  end.

End Api.
Import Api.

(* ================================================================== *)
(** ** Asynchronous scripts *)
(* ================================================================== *)

Module Async.

(** The body of an [async] function over synchronous actions [A]:
    [Do] performs an action and goes on; [Fetch] is [await fetch(..)],
    the rest of the function waits for the outcome; [SetTimeout]
    schedules a callback and goes on. *)
Inductive Prog (A : Type) : Type :=
| Done
| Do (a : A) (k : Prog A)
| Fetch (req : Request) (k : FetchOutcome -> Prog A)
| SetTimeout (ms : nat) (callback : Prog A) (k : Prog A).
Arguments Done {A}.

End Async.
Import Async.

(* ================================================================== *)
(** ** The settings object *)
(* ================================================================== *)

Module Settings.

(** The settings object; a field that is absent from the object is
    [None].  The types are those of the initial value in
    [VideoGenerator.jsx]: four strings and three booleans. *)
Record Settings := {
  aspectRatio : option string;
  template : option string;
  voiceTone : option string;
  enableKaraoke : option bool;
  includeVoiceover : option bool;
  includeMusic : option bool;
  backgroundMusic : option string
}.

(** The initial value of [useState] in [VideoGenerator]. *)
Definition initial : Settings :=
  {| aspectRatio := Some "16:9";
     template := Some "modern";
     voiceTone := Some "professional";
     enableKaraoke := Some true;
     includeVoiceover := Some true;
     includeMusic := Some true;
     backgroundMusic := Some "corporate" |}.

End Settings.
Import Settings.

(* ================================================================== *)
(** ** config/api.js: the [videoAPI] wrappers *)
(* ================================================================== *)

Module videoAPI.

(** The validation that [scrapeProduct] runs on the result of
    [apiRequest], inside its [try]; its [catch] rethrows. *)
Definition scrapeProduct_result (c : Completion ApiResult)
  : Completion ApiResult :=
  match c with
  | Throw e => Throw e
  | Return (Json JNull) =>
      Throw (Error "Empty response from scrape endpoint")
  | Return (Raw r) =>
      (* a Response object is truthy and has neither field *)
      Throw (Error "Backend did not return a session ID")
  | Return (Json (JObject result)) =>
      if negb (truthy (session_id result)) && negb (truthy (Api.sessionId result))
      then Throw (Error "Backend did not return a session ID")
      else if truthy (session_id result) && negb (truthy (Api.sessionId result))
      then Return (Json (JObject
             {| success := success result;
                session_id := session_id result;
                Api.sessionId := session_id result;
                product_data := product_data result;
                ad_script := ad_script result;
                video_path := video_path result;
                Api.status := Api.status result;
                Api.error := Api.error result;
                detail := detail result;
                Api.message := Api.message result |}))
      else Return (Json (JObject result))
  end.

Section Wrappers.
Variable A : Type.

(** [await videoAPI.scrapeProduct(url)], then [k]. *)
Definition scrapeProduct (url : string)
           (k : Completion ApiResult -> Prog A) : Prog A :=
  Fetch {| endpoint := SCRAPE; method := "POST";
           body := Some [("url", url)] |}
        (fun o => k (scrapeProduct_result (apiRequest o))).

(** [await videoAPI.generateScript(sessionId, tone)], then [k]; a
    missing [tone] takes the parameter's default. *)
Definition generateScript (sessionId tone : option string)
           (k : Completion ApiResult -> Prog A) : Prog A :=
  match sessionId with
  | Some (String c s) =>
      Fetch {| endpoint := GENERATE_SCRIPT; method := "POST";
               body := Some [("session_id", String c s);
                             ("tone", match tone with
                                      | Some t => t
                                      | None => "exciting"
                                      end)] |}
            (fun o => k (apiRequest o))
  | _ => k (Throw (Error "Session ID is required for script generation"))
  end.

(** [await videoAPI.getSessionData(sessionId)], then [k]. *)
Definition getSessionData (sessionId : option string)
           (k : Completion ApiResult -> Prog A) : Prog A :=
  match sessionId with
  | Some (String c s) =>
      Fetch {| endpoint := SESSION_DATA (String c s); method := "GET";
               body := None |}
            (fun o => k (apiRequest o))
  | _ => k (Throw (Error "Session ID is required for session data"))
  end.

End Wrappers.

(** The fields that [createVideo] appends after [session_id]. *)
Definition form_fields (settings : Settings) : FormData :=
  [ ("aspect_ratio", or_else (aspectRatio settings) "16:9");
    ("template", or_else (template settings) "modern");
    ("voice_tone", or_else (voiceTone settings) "professional");
    ("enable_karaoke",
      if truthyb (enableKaraoke settings) then "true" else "false");
    ("include_voiceover",
      if truthyb (includeVoiceover settings) then "true" else "false");
    ("background_music", or_else (backgroundMusic settings) "corporate");
    ("include_music",
      if truthyb (includeMusic settings) then "true" else "false") ].

(** The [FormData] that [createVideo] builds. *)
Definition createVideo_form (sessionId : string) (settings : Settings)
  : FormData :=
  ("session_id", sessionId) :: form_fields settings.

(** [await videoAPI.createVideo(sessionId, settings)], then [k]. *)
Definition createVideo (A : Type) (sessionId : option string)
           (settings : Settings)
           (k : Completion ApiResult -> Prog A) : Prog A :=
  match sessionId with
  | Some (String c s) =>
      Fetch {| endpoint := CREATE_VIDEO; method := "POST";
               body := Some (createVideo_form (String c s) settings) |}
            (fun o => k (apiRequest o))
  | _ => k (Throw (Error "Session ID is required for video creation"))
  end.

End videoAPI.

(* ================================================================== *)
(** ** components/VideoSettings.jsx: the form *)
(* ================================================================== *)

Module VideoSettings.

(** The choices the form offers. *)
Definition aspectRatio_options : list string := ["16:9"; "9:16"; "1:1"].
Definition template_options : list string :=
  ["modern"; "classic"; "dynamic"; "minimal"].
Definition voiceTone_options : list string :=
  ["professional"; "friendly"; "exciting"; "calm"; "authoritative"].
Definition backgroundMusic_options : list string :=
  ["corporate"; "energetic"; "relaxed"; "modern"].

(** A change event of the form: the key and the value that the input
    passes to [handleChange]. *)
Inductive Change :=
| ChangeAspectRatio (value : string)
| ChangeTemplate (value : string)
| ChangeVoiceTone (value : string)
| ChangeIncludeVoiceover (checked : bool)
| ChangeEnableKaraoke (checked : bool)
| ChangeIncludeMusic (checked : bool)
| ChangeBackgroundMusic (value : string).

(** [handleChange(key, value)]: [{ ...localSettings, [key]: value }]. *)
Definition handleChange (localSettings : Settings) (c : Change) : Settings :=
  match c with
  | ChangeAspectRatio v =>
      {| aspectRatio := Some v; template := template localSettings;
         voiceTone := voiceTone localSettings;
         enableKaraoke := enableKaraoke localSettings;
         includeVoiceover := includeVoiceover localSettings;
         includeMusic := includeMusic localSettings;
         backgroundMusic := backgroundMusic localSettings |}
  | ChangeTemplate v =>
      {| aspectRatio := aspectRatio localSettings; template := Some v;
         voiceTone := voiceTone localSettings;
         enableKaraoke := enableKaraoke localSettings;
         includeVoiceover := includeVoiceover localSettings;
         includeMusic := includeMusic localSettings;
         backgroundMusic := backgroundMusic localSettings |}
  | ChangeVoiceTone v =>
      {| aspectRatio := aspectRatio localSettings;
         template := template localSettings;
         voiceTone := Some v;
         enableKaraoke := enableKaraoke localSettings;
         includeVoiceover := includeVoiceover localSettings;
         includeMusic := includeMusic localSettings;
         backgroundMusic := backgroundMusic localSettings |}
  | ChangeIncludeVoiceover b =>
      {| aspectRatio := aspectRatio localSettings;
         template := template localSettings;
         voiceTone := voiceTone localSettings;
         enableKaraoke := enableKaraoke localSettings;
         includeVoiceover := Some b;
         includeMusic := includeMusic localSettings;
         backgroundMusic := backgroundMusic localSettings |}
  | ChangeEnableKaraoke b =>
      {| aspectRatio := aspectRatio localSettings;
         template := template localSettings;
         voiceTone := voiceTone localSettings;
         enableKaraoke := Some b;
         includeVoiceover := includeVoiceover localSettings;
         includeMusic := includeMusic localSettings;
         backgroundMusic := backgroundMusic localSettings |}
  | ChangeIncludeMusic b =>
      {| aspectRatio := aspectRatio localSettings;
         template := template localSettings;
         voiceTone := voiceTone localSettings;
         enableKaraoke := enableKaraoke localSettings;
         includeVoiceover := includeVoiceover localSettings;
         includeMusic := Some b;
         backgroundMusic := backgroundMusic localSettings |}
  | ChangeBackgroundMusic v =>
      {| aspectRatio := aspectRatio localSettings;
         template := template localSettings;
         voiceTone := voiceTone localSettings;
         enableKaraoke := enableKaraoke localSettings;
         includeVoiceover := includeVoiceover localSettings;
         includeMusic := includeMusic localSettings;
         backgroundMusic := Some v |}
  end.

Definition mem (v : string) (options : list string) : bool :=
  existsb (String.eqb v) options.

(** A change the rendered inputs can emit: radio buttons and selects
    only carry one of their options. *)
Definition offered (c : Change) : bool :=
  match c with
  | ChangeAspectRatio v => mem v aspectRatio_options
  | ChangeTemplate v => mem v template_options
  | ChangeVoiceTone v => mem v voiceTone_options
  | ChangeBackgroundMusic v => mem v backgroundMusic_options
  | ChangeIncludeVoiceover _ | ChangeEnableKaraoke _
  | ChangeIncludeMusic _ => true
  end.

(** The object handed to [onConfirm] after a series of changes. *)
Definition fill_form (start : Settings) (changes : list Change) : Settings :=
  fold_left handleChange changes start.

(** Every field holds one of its enumerated legal values. *)
Definition legal (s : Settings) : bool :=
  match aspectRatio s, template s, voiceTone s, backgroundMusic s,
        enableKaraoke s, includeVoiceover s, includeMusic s with
  | Some a, Some t, Some v, Some m, Some _, Some _, Some _ =>
      mem a aspectRatio_options && mem t template_options
      && mem v voiceTone_options && mem m backgroundMusic_options
  | _, _, _, _, _, _, _ => false
  end.

End VideoSettings.

(* ================================================================== *)
(** ** components/VideoGenerator.jsx: the workflow *)
(* ================================================================== *)

Module VideoGenerator.

(** [currentStep]: only ever assigned one of four literals. *)
Inductive Step := input | settings_step | generating | results.

Definition Step_eqb (a b : Step) : bool :=
  match a, b with
  | input, input | settings_step, settings_step
  | generating, generating | results, results => true
  | _, _ => false
  end.

(** The [generationData] object.  [status] is a string tag in every
    literal of the component; it is an [option Scalar] because the
    refresh on the results step copies whatever [status] its result
    carries: a missing one, or the number of a raw [Response]. *)
Record GenerationData := {
  sessionId : option string;
  productData : option string;
  adScript : option string;
  videoPath : option string;
  progress : nat;
  status : option Scalar;
  error : option string;
  currentOperation : string
}.

(** The object literal after [...prev] in a functional update, or a
    whole object literal: the fields it names, with their new values. *)
Record Patch := {
  set_sessionId : option (option string);
  set_productData : option (option string);
  set_adScript : option (option string);
  set_videoPath : option (option string);
  set_progress : option nat;
  set_status : option (option Scalar);
  set_error : option (option string);
  set_currentOperation : option string
}.

Definition upd {T : Type} (new : option T) (old : T) : T :=
  match new with
  | Some v => v
  | None => old
  end.

(** [{ ...prev, ...patch }]. *)
Definition apply_patch (prev : GenerationData) (p : Patch) : GenerationData :=
  {| sessionId := upd (set_sessionId p) (sessionId prev);
     productData := upd (set_productData p) (productData prev);
     adScript := upd (set_adScript p) (adScript prev);
     videoPath := upd (set_videoPath p) (videoPath prev);
     progress := upd (set_progress p) (progress prev);
     status := upd (set_status p) (status prev);
     error := upd (set_error p) (error prev);
     currentOperation := upd (set_currentOperation p) (currentOperation prev) |}.

(** A whole object literal names every field. *)
Definition whole (g : GenerationData) : Patch :=
  {| set_sessionId := Some (sessionId g);
     set_productData := Some (productData g);
     set_adScript := Some (adScript g);
     set_videoPath := Some (videoPath g);
     set_progress := Some (progress g);
     set_status := Some (status g);
     set_error := Some (error g);
     set_currentOperation := Some (currentOperation g) |}.

(** The initial value of [useState], which [handleReset] writes again. *)
Definition idle_data : GenerationData :=
  {| sessionId := None; productData := None; adScript := None;
     videoPath := None; progress := 0; status := Some "idle";
     error := None; currentOperation := "" |}.

(** The synchronous actions of the handlers.  [updaterThrows e] is a
    [setGenerationData(prev => ...)] whose updater throws [e]: React runs
    the updater after the call has returned, so the [try] block around
    the call does not see the exception, no update is made, and the
    error comes up while React renders the component. *)
Inductive Action :=
| setGenerationData (p : Patch)
| setCurrentStep (s : Step)
| setUrl (u : string)
| setSettings (s : Settings)
| showToast (msg kind : string)
| clickLink (href download : string)
| updaterThrows (e : JsError).

(** *** The handlers *)

(** The update of every [catch] block and of the precondition check. *)
Definition failed (msg operation : string) : Patch :=
  {| set_sessionId := None; set_productData := None; set_adScript := None;
     set_videoPath := None; set_progress := None;
     set_status := Some (Some "error");
     set_error := Some (Some msg);
     set_currentOperation := Some operation |}.

(** The [catch] block of [handleUrlSubmit]. *)
Definition scrape_catch (e : JsError) : Prog Action :=
  Do (setGenerationData (failed (Js.message e) "Scraping failed"))
 (Do (showToast ("Scraping failed: " ++ Js.message e) "error")
  Done).

(** [handleUrlSubmit] after [await videoAPI.scrapeProduct]. *)
Definition scrape_resume (c : Completion ApiResult) : Prog Action :=
  match c with
  | Throw e => scrape_catch e
  | Return res =>
      match fields res with
      | None => scrape_catch (null_read "success")
      | Some result =>
          if truthyb (success result) && truthy (session_id result) then
            Do (setGenerationData
                  {| set_sessionId := Some (session_id result);
                     set_productData := Some (product_data result);
                     set_adScript := None; set_videoPath := None;
                     set_progress := Some 25;
                     set_status := Some (Some "scraped");
                     set_error := None;
                     set_currentOperation :=
                       Some "Product data scraped successfully!" |})
           (SetTimeout 1500 (Do (setCurrentStep settings_step) Done)
           (Do (showToast "Product data scraped successfully!" "success")
            Done))
          else
            scrape_catch
              (Error (or_else (Api.error result)
                 "Failed to scrape product data - no session ID returned"))
      end
  end.

Definition handleUrlSubmit (submittedUrl : string) : Prog Action :=
  Do (setUrl submittedUrl)
 (Do (setGenerationData
        (whole {| sessionId := None; productData := None; adScript := None;
                  videoPath := None; progress := 10;
                  status := Some "scraping"; error := None;
                  currentOperation := "Scraping product data..." |}))
 (Do (setCurrentStep generating)
 (videoAPI.scrapeProduct submittedUrl scrape_resume))).

(** The [catch] block of the timer callback in [handleSettingsConfirm]. *)
Definition video_catch (e : JsError) : Prog Action :=
  Do (setGenerationData (failed (Js.message e) "Video creation failed"))
 (Do (showToast ("Video creation failed: " ++ Js.message e) "error")
  Done).

(** The timer callback after [await videoAPI.createVideo]. *)
Definition video_resume (c : Completion ApiResult) : Prog Action :=
  match c with
  | Throw e => video_catch e
  | Return res =>
      match fields res with
      | None => video_catch (null_read "success")
      | Some videoResult =>
          if truthyb (success videoResult) then
            Do (setGenerationData
                  {| set_sessionId := None; set_productData := None;
                     set_adScript := None;
                     set_videoPath := Some (video_path videoResult);
                     set_progress := Some 100;
                     set_status := Some (Some "completed");
                     set_error := None;
                     set_currentOperation :=
                       Some "Video created successfully!" |})
           (Do (setCurrentStep results)
           (Do (showToast "Video generated successfully!" "success")
            Done))
          else
            video_catch
              (Error (or_else (Api.error videoResult) "Failed to create video"))
      end
  end.

(** The callback that [handleSettingsConfirm] schedules; [sessionId] is
    the value the handler's closure captured. *)
Definition create_video_step (sessionId : option string)
           (confirmedSettings : Settings) : Prog Action :=
  Do (setGenerationData
        {| set_sessionId := None; set_productData := None;
           set_adScript := None; set_videoPath := None;
           set_progress := Some 60;
           set_status := Some (Some "creating_video");
           set_error := None;
           set_currentOperation := Some "Creating video with AI..." |})
 (videoAPI.createVideo sessionId confirmedSettings video_resume).

(** The outer [catch] block of [handleSettingsConfirm]. *)
Definition script_catch (e : JsError) : Prog Action :=
  Do (setGenerationData (failed (Js.message e) "Script generation failed"))
 (Do (showToast ("Script generation failed: " ++ Js.message e) "error")
  Done).

(** [handleSettingsConfirm] after [await videoAPI.generateScript]. *)
Definition script_resume (sessionId : option string)
           (confirmedSettings : Settings)
           (c : Completion ApiResult) : Prog Action :=
  match c with
  | Throw e => script_catch e
  | Return res =>
      match fields res with
      | None => script_catch (null_read "success")
      | Some scriptResult =>
          if negb (truthyb (success scriptResult)) then
            script_catch
              (Error (or_else (Api.error scriptResult)
                              "Failed to generate script"))
          else
            Do (setGenerationData
                  {| set_sessionId := None; set_productData := None;
                     set_adScript := Some (ad_script scriptResult);
                     set_videoPath := None;
                     set_progress := Some 50;
                     set_status := Some (Some "script_generated");
                     set_error := None;
                     set_currentOperation :=
                       Some "AI script generated successfully!" |})
           (SetTimeout 1000 (create_video_step sessionId confirmedSettings)
            Done)
      end
  end.

(** [handleSettingsConfirm]; [generationData] is the state of the render
    whose closure the handler is. *)
Definition handleSettingsConfirm (generationData : GenerationData)
           (confirmedSettings : Settings) : Prog Action :=
  if negb (truthy (sessionId generationData)) then
    Do (setGenerationData
          (failed "No session ID available. Please try again."
                  "Session error"))
   (Do (showToast
          "Session error: No session ID available. Please try again."
          "error")
    Done)
  else
    Do (setSettings confirmedSettings)
   (Do (setCurrentStep generating)
   (Do (setGenerationData
          {| set_sessionId := None; set_productData := None;
             set_adScript := None; set_videoPath := None;
             set_progress := Some 35;
             set_status := Some (Some "generating_script");
             set_error := Some None;
             set_currentOperation := Some "Generating AI script..." |})
   (videoAPI.generateScript (sessionId generationData)
      (voiceTone confirmedSettings)
      (script_resume (sessionId generationData) confirmedSettings)))).

Definition handleReset : Prog Action :=
  Do (setCurrentStep input)
 (Do (setUrl "")
 (Do (setGenerationData (whole idle_data))
  Done)).

Definition handleDownload (generationData : GenerationData) : Prog Action :=
  match sessionId generationData with
  | Some (String c s) =>
      let sid := String c s in
      Do (clickLink ("/api/download/" ++ sid) ("ad_video_" ++ sid ++ ".mp4"))
     (Do (showToast "Download started!" "success")
      Done)
  | _ =>
      Do (showToast "Download failed: No session ID available" "error")
      Done
  end.

(** [refreshSessionData] after [await videoAPI.getSessionData]; a
    failure of the call is only logged.  The four reads of [sessionData]
    are made inside the updater: of a [null] record the first of them,
    [sessionData.product_data], throws there, outside the [try] block. *)
Definition refresh_resume (c : Completion ApiResult) : Prog Action :=
  match c with
  | Throw _ => Done
  | Return res =>
      match fields res with
      | None => Do (updaterThrows (null_read "product_data")) Done
      | Some sessionData =>
          Do (setGenerationData
                {| set_sessionId := None;
                   set_productData := Some (product_data sessionData);
                   set_adScript := Some (ad_script sessionData);
                   set_videoPath := Some (video_path sessionData);
                   set_progress := None;
                   set_status := Some (Api.status sessionData);
                   set_error := None;
                   set_currentOperation := None |})
          Done
      end
  end.

Definition refreshSessionData (generationData : GenerationData)
  : Prog Action :=
  videoAPI.getSessionData (sessionId generationData) refresh_resume.

End VideoGenerator.
Import VideoGenerator.

(* ================================================================== *)
(** ** The component at run time *)
(* ================================================================== *)

Module Runtime.

(** What the component does to the outside, in order. *)
Inductive Effect :=
| Performed (a : Action)
| Requested (req : Request).

(** The component's state, the calls in flight with the suspended rest
    of their handlers, the scheduled timer callbacks, and the effects so
    far (oldest first). *)
Record World := {
  currentStep : Step;
  url : string;
  settings : Settings;
  generationData : GenerationData;
  inflight : list (Request * (FetchOutcome -> Prog Action));
  timers : list (nat * Prog Action);
  effects : list Effect
}.

(** The component as mounted. *)
Definition mounted : World :=
  {| currentStep := input; url := ""; settings := Settings.initial;
     generationData := idle_data; inflight := []; timers := [];
     effects := [] |}.

(** The state change of one action. *)
Definition perform (a : Action) (w : World) : World :=
  {| currentStep := match a with
                    | setCurrentStep s => s
                    | _ => currentStep w
                    end;
     url := match a with
            | setUrl u => u
            | _ => url w
            end;
     settings := match a with
                 | setSettings s => s
                 | _ => settings w
                 end;
     generationData := match a with
                       | setGenerationData p =>
                           apply_patch (generationData w) p
                       | _ => generationData w
                       end;
     inflight := inflight w;
     timers := timers w;
     effects := effects w ++ [Performed a] |}.

Definition suspend (req : Request) (k : FetchOutcome -> Prog Action)
           (w : World) : World :=
  {| currentStep := currentStep w; url := url w; settings := settings w;
     generationData := generationData w;
     inflight := inflight w ++ [(req, k)];
     timers := timers w;
     effects := effects w ++ [Requested req] |}.

Definition schedule (ms : nat) (callback : Prog Action) (w : World) : World :=
  {| currentStep := currentStep w; url := url w; settings := settings w;
     generationData := generationData w;
     inflight := inflight w;
     timers := timers w ++ [(ms, callback)];
     effects := effects w |}.

(** Run a script up to its next [await]. *)
Fixpoint run (p : Prog Action) (w : World) : World :=
  match p with
  | Done => w
  | Do a k => run k (perform a w)
  | Fetch req k => suspend req k w
  | SetTimeout ms callback k => run k (schedule ms callback w)
  end.

Fixpoint remove_nth {T : Type} (i : nat) (l : list T) : list T :=
  match i, l with
  | _, [] => []
  | O, _ :: rest => rest
  | S j, x :: rest => x :: remove_nth j rest
  end.

Definition settle (i : nat) (w : World) : World :=
  {| currentStep := currentStep w; url := url w; settings := settings w;
     generationData := generationData w;
     inflight := remove_nth i (inflight w);
     timers := timers w;
     effects := effects w |}.

Definition expire (i : nat) (w : World) : World :=
  {| currentStep := currentStep w; url := url w; settings := settings w;
     generationData := generationData w;
     inflight := inflight w;
     timers := remove_nth i (timers w);
     effects := effects w |}.

(** What can happen to the component: the user's actions on whichever
    view is rendered, the settling of a call in flight, and the firing
    of a timer. *)
Inductive Event :=
| SubmitUrl (submittedUrl : string)
| ChangeSettings (newSettings : Settings)
| ConfirmSettings (confirmedSettings : Settings)
| Back
| Reset
| Download
| Settles (i : nat) (o : FetchOutcome)
| Fires (i : nat).

(** The handler that an event runs. *)
Definition handle (w : World) (e : Event) : World :=
  match e with
  | SubmitUrl u => run (handleUrlSubmit u) w
  | ChangeSettings s => run (Do (setSettings s) Done) w
  | ConfirmSettings s => run (handleSettingsConfirm (generationData w) s) w
  | Back => run (Do (setCurrentStep input) Done) w
  | Reset => run handleReset w
  | Download => run (handleDownload (generationData w)) w
  | Settles i o =>
      match nth_error (inflight w) i with
      | Some (_, k) => run (k o) (settle i w)
      | None => w
      end
  | Fires i =>
      match nth_error (timers w) i with
      | Some (_, callback) => run callback (expire i w)
      | None => w
      end
  end.

Definition option_eqb (a b : option string) : bool :=
  match a, b with
  | None, None => true
  | Some x, Some y => String.eqb x y
  | _, _ => false
  end.

(** The [useEffect] with dependencies [currentStep] and
    [generationData.sessionId]: after a render in which one of them
    changed, on the results step with a session id, refresh. *)
Definition useEffect_refresh (before after : World) : World :=
  if Step_eqb (currentStep before) (currentStep after)
     && option_eqb (sessionId (generationData before))
                   (sessionId (generationData after))
  then after
  else if Step_eqb (currentStep after) results
          && truthy (sessionId (generationData after))
  then run (refreshSessionData (generationData after)) after
  else after.

(** One event: its handler, then the effects of the render. *)
Definition dispatch (w : World) (e : Event) : World :=
  useEffect_refresh w (handle w e).

Definition dispatch_all (w : World) (es : list Event) : World :=
  fold_left dispatch es w.

(** The events that can occur in a world: the user actions that the
    rendered view offers ([GenerationProgress] shows its reset button in
    every status), and the calls and timers that are pending. *)
Definition available (w : World) (e : Event) : bool :=
  match e with
  | SubmitUrl _ => Step_eqb (currentStep w) input
  | ChangeSettings _ | ConfirmSettings _ | Back =>
      Step_eqb (currentStep w) settings_step
  | Reset =>
      Step_eqb (currentStep w) generating || Step_eqb (currentStep w) results
  | Download => Step_eqb (currentStep w) results
  | Settles i _ => Nat.ltb i (length (inflight w))
  | Fires i => Nat.ltb i (length (timers w))
  end.

(** *** Reading the effects *)

(** The requests sent, in order. *)
Definition requests (l : list Effect) : list Request :=
  flat_map (fun e => match e with
                     | Requested r => [r]
                     | Performed _ => []
                     end) l.

(** The link clicks, in order. *)
Definition navigations (l : list Effect) : list (string * string) :=
  flat_map (fun e => match e with
                     | Performed (clickLink h d) => [(h, d)]
                     | _ => []
                     end) l.

(** The updates of [generationData], in order. *)
Definition patches (l : list Effect) : list Patch :=
  flat_map (fun e => match e with
                     | Performed (setGenerationData p) => [p]
                     | _ => []
                     end) l.

(** The values assigned to [progress], in order. *)
Definition progress_assigned (l : list Effect) : list nat :=
  flat_map (fun p => match set_progress p with
                     | Some n => [n]
                     | None => []
                     end) (patches l).

(** The values assigned to [status], in order. *)
Definition status_assigned (l : list Effect) : list (option Scalar) :=
  flat_map (fun p => match set_status p with
                     | Some s => [s]
                     | None => []
                     end) (patches l).

End Runtime.
Import Runtime.

(* ================================================================== *)
(** ** Vocabulary of the properties *)
(* ================================================================== *)

(** Modelled from the spec: the stub backend of the round-trip property
    (section 8), which is not among the sources.  It reads each field of
    the form payload by name and decodes the booleans from the literal
    strings true and false. *)
Module StubBackend.

Fixpoint get (key : string) (form : FormData) : option string :=
  match form with
  | [] => None
  | (k, v) :: rest => if String.eqb k key then Some v else get key rest
  end.

Definition parse_bool (v : string) : option bool :=
  if String.eqb v "true" then Some true
  else if String.eqb v "false" then Some false
  else None.

Definition get_bool (key : string) (form : FormData) : option bool :=
  match get key form with
  | Some v => parse_bool v
  | None => None
  end.

Definition parse_settings (form : FormData) : Settings :=
  {| aspectRatio := get "aspect_ratio" form;
     template := get "template" form;
     voiceTone := get "voice_tone" form;
     enableKaraoke := get_bool "enable_karaoke" form;
     includeVoiceover := get_bool "include_voiceover" form;
     includeMusic := get_bool "include_music" form;
     backgroundMusic := get "background_music" form |}.

End StubBackend.

Module Outcomes.

(** A 2xx JSON response with the given body. *)
Definition json_response (o : JsonObject) : FetchOutcome :=
  Responds {| http_status := 200; statusText := "OK";
              content_type := Some "application/json";
              text := ""; parsed := Parsed (JObject o) |}.

(** The body that [apiRequest] and [scrapeProduct] hand to
    [handleUrlSubmit] when the latter takes its success branch. *)
Definition scrape_success (o : FetchOutcome) : option JsonObject :=
  match videoAPI.scrapeProduct_result (apiRequest o) with
  | Return res =>
      match fields res with
      | Some result =>
          if truthyb (success result) && truthy (session_id result)
          then Some result else None
      | None => None
      end
  | Throw _ => None
  end.

(** A body that every stage accepts as a success. *)
Definition sample_body : JsonObject :=
  {| success := Some true; session_id := Some "abc";
     Api.sessionId := Some "abc"; product_data := Some "Widget";
     ad_script := Some "script"; video_path := Some "out.mp4";
     Api.status := Some "completed"; Api.error := None;
     detail := None; message := None |}.

(** The body on which [handleSettingsConfirm] (generate-script) or its
    timer callback (create-video) takes the success branch. *)
Definition stage_success (o : FetchOutcome) : option JsonObject :=
  match apiRequest o with
  | Return res =>
      match fields res with
      | Some result => if truthyb (success result) then Some result else None
      | None => None
      end
  | Throw _ => None
  end.

(** The body of a response, when it parses to an object. *)
Definition body_object (o : FetchOutcome) : option JsonObject :=
  match o with
  | Responds r =>
      match parsed r with
      | Parsed (JObject b) => Some b
      | _ => None
      end
  | Rejects _ => None
  end.

(** The exception that the platform itself raises for [o], if it raises
    one (a rejected [fetch], a failing [response.json()]), carries a
    non-empty message. *)
Definition platform_message (o : FetchOutcome) : bool :=
  match o with
  | Rejects e => nonempty (Js.message e)
  | Responds r =>
      match parsed r with
      | SyntaxError e => nonempty (Js.message e)
      | Parsed _ => true
      end
  end.

(** The payload of the request that [createVideo] sends, if it sends
    one. *)
Definition createVideo_payload (sessionId : option string)
           (settings : Settings) : option FormData :=
  match videoAPI.createVideo sessionId settings
          (fun _ => @Done Action) with
  | Fetch req _ => body req
  | _ => None
  end.

(** A script never assigns 0 to [progress]. *)
Fixpoint never_zero (p : Prog Action) : Prop :=
  match p with
  | Done => True
  | Do a k =>
      match a with
      | setGenerationData pt => set_progress pt <> Some 0
      | _ => True
      end /\ never_zero k
  | Fetch _ k => forall o, never_zero (k o)
  | SetTimeout _ callback k => never_zero callback /\ never_zero k
  end.

(** The wizard is on [step], [status] is error and [error] holds a
    non-empty message. *)
Definition failed_on (step : Step) (w : World) : Prop :=
  currentStep w = step
  /\ status (generationData w) = Some "error"
  /\ exists msg, error (generationData w) = Some msg /\ nonempty msg = true.



(** Nothing parked in the world (the rest of a suspended handler, a
    timer callback) ever assigns 0 to [progress]. *)
Definition parked_never_zero (w : World) : Prop :=
  Forall (fun call => forall o, never_zero (snd call o)) (inflight w)
  /\ Forall (fun timer => never_zero (snd timer)) (timers w).

Fixpoint nondecreasing (l : list nat) : bool :=
  match l with
  | a :: ((b :: _) as rest) => Nat.leb a b && nondecreasing rest
  | _ => true
  end.

End Outcomes.
Import Outcomes.

(* ================================================================== *)
(** ** config/api.js: the base URL and the request options *)
(* ================================================================== *)

From Stdlib Require Import ZArith.

Module Config.

(** [API_BASE_URL], from the build mode and the [VITE_API_URL] setting. *)
Definition API_BASE_URL (isDevelopment : bool) (VITE_API_URL : option string)
  : string :=
  if isDevelopment then "" else or_else VITE_API_URL "http://localhost:8000".

(** A JavaScript object with string values: its own keys, in order. *)
Definition Obj := list (string * string).

Fixpoint get (key : string) (o : Obj) : option string :=
  match o with
  | [] => None
  | (k, v) :: rest => if String.eqb k key then Some v else get key rest
  end.

(** [o[key] = v]. *)
Fixpoint assign (key v : string) (o : Obj) : Obj :=
  match o with
  | [] => [(key, v)]
  | (k, v') :: rest =>
      if String.eqb k key then (k, v) :: rest else (k, v') :: assign key v rest
  end.

(** [{ ...o, ...more }]. *)
Definition spread (o more : Obj) : Obj :=
  fold_left (fun acc kv => assign (fst kv) (snd kv) acc) more o.

(** [delete o[key]]. *)
Definition delete (key : string) (o : Obj) : Obj :=
  filter (fun kv => negb (String.eqb (fst kv) key)) o.

(** The body of a request: a [FormData] or anything else. *)
Inductive BodyInit :=
| FormDataBody (f : FormData)
| OtherBody (s : string).

(** The [options] argument of [apiRequest]; a key that the caller leaves
    out is [None]. *)
Record Options := {
  opt_method : option string;
  opt_headers : option Obj;
  opt_body : option BodyInit
}.

Definition instanceof_FormData (b : option BodyInit) : bool :=
  match b with
  | Some (FormDataBody _) => true
  | _ => false
  end.

(** The [headers] of [defaultOptions] as [fetch] receives them: the
    object literal merges the default with the caller's headers, the
    spread of [options] after it puts the caller's [headers] in its place
    when there is one, and a [FormData] body has [Content-Type] deleted. *)
Definition defaultOptions_headers (options : Options) : Obj :=
  let merged :=
    spread [("Content-Type", "application/json")]
           (match opt_headers options with
            | Some h => h
            | None => []
            end) in
  let headers :=
    match opt_headers options with
    | Some h => h
    | None => merged
    end in
  if instanceof_FormData (opt_body options)
  then delete "Content-Type" headers
  else headers.

End Config.

(* ================================================================== *)
(** ** config/api.js: [getStatus] and [pollStatus] *)
(* ================================================================== *)

Module Polling.

(** What [await videoAPI.getStatus(sessionId)] gives, when the request it
    sends (if any) settles as [o]. *)
Definition getStatus_result (sessionId : option string) (o : FetchOutcome)
  : Completion ApiResult :=
  if truthy sessionId then apiRequest o
  else Throw (Error "Session ID is required for status check").

(** The request that [getStatus] sends. *)
Definition getStatus_request (sessionId : option string) : list Request :=
  match sessionId with
  | Some (String c s) =>
      [{| endpoint := STATUS (String c s); method := "GET"; body := None |}]
  | _ => []
  end.

(** How one call of [poll] ends. *)
Inductive Round :=
| Resolve (status : JsonObject)
| Reject (e : JsError)
| Again.

(** One call of [poll]: [now] is what [Date.now()] reads, [o] is how the
    status request settles if it is sent. *)
Definition poll (sessionId : option string) (startTime timeoutMs now : Z)
           (o : FetchOutcome) : Round * list Request :=
  if (now - startTime >? timeoutMs)%Z
  then (Reject (Error "Status polling timeout"), [])
  else
    (match getStatus_result sessionId o with
     | Throw e => Reject e
     | Return (Json JNull) => Reject (null_read "status")
     | Return (Json (JObject status)) =>
         if strict_eqb (Api.status status) (Some "completed")
         then Resolve status
         else if strict_eqb (Api.status status) (Some "error")
         then Reject (Error (or_else (Api.error status) "Generation failed"))
         else Again
     | Return (Raw r) =>
         (* the [status] of a Response object is the numeric HTTP status *)
         Again
     end,
     getStatus_request sessionId).

(** The promise of [pollStatus] after some rounds. *)
Inductive Promise :=
| Resolved (status : JsonObject)
| Rejected (e : JsError)
| Pending.

(** [pollStatus(sessionId, timeoutMs, intervalMs)], started when
    [Date.now()] read [startTime]: each round is one call of [poll], the
    first made at once and every next one by the timer that the round
    before it set.  Returns the state of the promise and the requests
    sent, in order. *)
Fixpoint pollStatus (sessionId : option string) (startTime timeoutMs : Z)
         (rounds : list (Z * FetchOutcome)) : Promise * list Request :=
  match rounds with
  | [] => (Pending, [])
  | (now, o) :: rest =>
      match poll sessionId startTime timeoutMs now o with
      | (Resolve status, sent) => (Resolved status, sent)
      | (Reject e, sent) => (Rejected e, sent)
      | (Again, sent) =>
          let (p, later) := pollStatus sessionId startTime timeoutMs rest in
          (p, (sent ++ later)%list)
      end
  end.

(** The clock readings of the rounds, given that a timer never fires
    early: the first is not before [t], each next one at least
    [intervalMs] after the one before. *)
Fixpoint spaced (t intervalMs : Z) (rounds : list (Z * FetchOutcome)) : Prop :=
  match rounds with
  | [] => True
  | (now, _) :: rest => (t <= now)%Z /\ spaced (now + intervalMs) intervalMs rest
  end.

End Polling.

(* ================================================================== *)
(** ** GenerationProgress: the status of a step *)
(* ================================================================== *)

Module GenerationProgress.

(** The keys of [steps], in order. *)
Definition steps : list string :=
  [ "scraping"; "scraped"; "generating_script"; "script_generated";
    "creating_video"; "completed" ].

(** [l.findIndex(p)]: the index of the first match, or -1. *)
Fixpoint findIndex_from {T : Type} (i : Z) (p : T -> bool) (l : list T) : Z :=
  match l with
  | [] => (-1)%Z
  | x :: rest => if p x then i else findIndex_from (i + 1)%Z p rest
  end.

Definition findIndex {T : Type} (p : T -> bool) (l : list T) : Z :=
  findIndex_from 0%Z p l.

(** [getStepStatus(stepKey)] for the [status] the component received. *)
Definition getStepStatus (status : option Scalar) (stepKey : string) : string :=
  let stepIndex := findIndex (fun key => String.eqb key stepKey) steps in
  let currentIndex :=
    findIndex (fun key : string => strict_eqb (Some (Str key)) status) steps in
  if strict_eqb status (Some "error") then
    if (stepIndex <=? currentIndex)%Z then "error" else "pending"
  else if (stepIndex <? currentIndex)%Z then "completed"
  else if (stepIndex =? currentIndex)%Z then "active"
  else "pending".

End GenerationProgress.

(* ================================================================== *)
(** ** VideoGenerator: the marks of the wizard's steps *)
(* ================================================================== *)

Module Wizard.

(** How the header draws a step: the current one, a finished one, or
    neither (purple, green, grey). *)
Inductive Mark := current | finished | plain.

(** [l.slice(0, stop)]. *)
Definition slice0 {T : Type} (stop : Z) (l : list T) : list T :=
  if (stop <? 0)%Z
  then firstn (Z.to_nat (Z.of_nat (length l) + stop)) l
  else firstn (Z.to_nat stop) l.

(** The class chosen for the step [key] of the header. *)
Definition mark (currentStep key : Step) : Mark :=
  if Step_eqb currentStep key then current
  else if existsb (Step_eqb key)
            (slice0 (GenerationProgress.findIndex (Step_eqb currentStep)
                       [input; settings_step; generating; results])
                    [settings_step; generating; results])
  then finished
  else plain.

(** The place of a step in the wizard. *)
Definition place (s : Step) : nat :=
  match s with
  | input => 0
  | settings_step => 1
  | generating => 2
  | results => 3
  end.

End Wizard.

(* ================================================================== *)
(** ** ScriptPreview: the full script and its word count *)
(* ================================================================== *)

Module ScriptPreview.

(** Modelled from the spec: the sections of the script record that the
    backend produces (section 3: hook, problem, solution, call to
    action); each may be missing. *)
Record AdScript := {
  hook : option string;
  problem : option string;
  solution : option string;
  call_to_action : option string
}.

(** [s.split(' ')]. *)
Fixpoint split (s : string) : list string :=
  match s with
  | EmptyString => [EmptyString]
  | String c rest =>
      if Ascii.eqb c " "%char then EmptyString :: split rest
      else match split rest with
           | word :: words => String c word :: words
           | [] => [String c EmptyString]
           end
  end.

(** [l.join(' ')]. *)
Fixpoint join (l : list string) : string :=
  match l with
  | [] => EmptyString
  | [x] => x
  | x :: rest => x ++ " " ++ join rest
  end.

(** [[hook, problem, solution, call_to_action].filter(Boolean)]. *)
Definition sections (adScript : AdScript) : list string :=
  flat_map (fun x => match x with
                     | Some (String c s) => [String c s]
                     | _ => []
                     end)
           [ hook adScript; problem adScript; solution adScript;
             call_to_action adScript ].

Definition full_script (adScript : AdScript) : string :=
  join (sections adScript).

(** The number shown as the word count. *)
Definition word_count (adScript : AdScript) : nat :=
  length (split (full_script adScript)).

(** The number of spaces of a string. *)
Fixpoint spaces (s : string) : nat :=
  match s with
  | EmptyString => 0
  | String c rest => (if Ascii.eqb c " "%char then 1 else 0) + spaces rest
  end.

End ScriptPreview.

(* ================================================================== *)
(** ** Vocabulary of the further properties *)
(* ================================================================== *)

Module Reach.

(** The values that the handlers assign to [progress]. *)
Definition checkpoints : list nat := [0; 10; 25; 35; 50; 60; 100].

(** A session id is null or a non-empty string. *)
Definition null_or_truthy (x : option string) : Prop :=
  x = None \/ truthy x = true.

(** An update assigns [progress] a checkpoint, if it assigns it, and
    [sessionId] null or a non-empty string, if it assigns it. *)
Definition tame_patch (p : Patch) : Prop :=
  match set_progress p with
  | Some n => In n checkpoints
  | None => True
  end
  /\ match set_sessionId p with
     | Some x => null_or_truthy x
     | None => True
     end.

(** Every update of a script, now or after an [await] or a timer, is
    tame. *)
Fixpoint tame (p : Prog Action) : Prop :=
  match p with
  | Done => True
  | Do a k =>
      match a with
      | setGenerationData pt => tame_patch pt
      | _ => True
      end /\ tame k
  | Fetch _ k => forall o, tame (k o)
  | SetTimeout _ callback k => tame callback /\ tame k
  end.

Definition tame_data (g : GenerationData) : Prop :=
  In (progress g) checkpoints /\ null_or_truthy (sessionId g).

(** The state is tame and so is everything parked in the world. *)
Definition tame_world (w : World) : Prop :=
  tame_data (generationData w)
  /\ Forall (fun call => forall o, tame (snd call o)) (inflight w)
  /\ Forall (fun timer => tame (snd timer)) (timers w).

(** The four requests of a run, for the session id [sid]. *)
Definition run_requests (u : string) (sid : string) (s : Settings)
  : list Request :=
  [ {| endpoint := SCRAPE; method := "POST"; body := Some [("url", u)] |};
    {| endpoint := GENERATE_SCRIPT; method := "POST";
       body := Some [("session_id", sid);
                     ("tone", match voiceTone s with
                              | Some t => t
                              | None => "exciting"
                              end)] |};
    {| endpoint := CREATE_VIDEO; method := "POST";
       body := Some (videoAPI.createVideo_form sid s) |};
    {| endpoint := SESSION_DATA sid; method := "GET"; body := None |} ].

(** A request names the session it is for: the script and video
    requests carry a non-empty [session_id] field, the status, session
    and download endpoints a non-empty id. *)
Definition names_its_session (req : Request) : bool :=
  match endpoint req with
  | SCRAPE => true
  | GENERATE_SCRIPT | CREATE_VIDEO =>
      match body req with
      | Some form => truthy (StubBackend.get "session_id" form)
      | None => false
      end
  | STATUS sid | SESSION_DATA sid | DOWNLOAD sid => nonempty sid
  end.

(** Every request of a script, now or after an [await] or a timer, names
    its session. *)
Fixpoint polite (p : Prog Action) : Prop :=
  match p with
  | Done => True
  | Do _ k => polite k
  | Fetch req k => names_its_session req = true /\ forall o, polite (k o)
  | SetTimeout _ callback k => polite callback /\ polite k
  end.

Definition polite_world (w : World) : Prop :=
  forallb names_its_session (requests (effects w)) = true
  /\ Forall (fun call => forall o, polite (snd call o)) (inflight w)
  /\ Forall (fun timer => polite (snd timer)) (timers w).

End Reach.

(* ================================================================== *)
(** ** VideoSettings: the change events that the inputs emit *)
(* ================================================================== *)

Module FormEvents.

Import VideoSettings.

(** The change events that the form can emit while it shows
    [localSettings]: a radio button or a select reports one of its
    options other than the one shown, a checkbox the opposite of what it
    shows, and the music select is rendered only while the music is
    switched on. *)
Definition emitted (localSettings : Settings) (c : Change) : bool :=
  match c with
  | ChangeAspectRatio v =>
      mem v aspectRatio_options
      && negb (option_eqb (aspectRatio localSettings) (Some v))
  | ChangeTemplate v =>
      mem v template_options
      && negb (option_eqb (template localSettings) (Some v))
  | ChangeVoiceTone v =>
      mem v voiceTone_options
      && negb (option_eqb (voiceTone localSettings) (Some v))
  | ChangeIncludeVoiceover b =>
      Bool.eqb b (negb (truthyb (includeVoiceover localSettings)))
  | ChangeEnableKaraoke b =>
      Bool.eqb b (negb (truthyb (enableKaraoke localSettings)))
  | ChangeIncludeMusic b =>
      Bool.eqb b (negb (truthyb (includeMusic localSettings)))
  | ChangeBackgroundMusic v =>
      truthyb (includeMusic localSettings)
      && mem v backgroundMusic_options
      && negb (option_eqb (backgroundMusic localSettings) (Some v))
  end.

(** A series of change events, each emitted by the form as the ones
    before it left it. *)
Fixpoint session (localSettings : Settings) (changes : list Change) : bool :=
  match changes with
  | [] => true
  | c :: rest =>
      emitted localSettings c && session (handleChange localSettings c) rest
  end.

(** The change that brings one field to its value in [target], if the
    field differs. *)
Definition text_change (make : string -> Change)
           (shown target : option string) : list Change :=
  match target with
  | Some v => if option_eqb shown target then [] else [make v]
  | None => []
  end.

Definition toggle_change (make : bool -> Change)
           (shown target : option bool) : list Change :=
  match target with
  | Some b => if Bool.eqb (truthyb shown) b then [] else [make b]
  | None => []
  end.

(** A way to fill the form, from the initial settings, so that it holds
    [target]: the music style first, while its select is still there. *)
Definition plan (target : Settings) : list Change :=
  (text_change ChangeBackgroundMusic
     (backgroundMusic Settings.initial) (backgroundMusic target)
   ++ text_change ChangeAspectRatio
        (aspectRatio Settings.initial) (aspectRatio target)
   ++ text_change ChangeTemplate
        (template Settings.initial) (template target)
   ++ text_change ChangeVoiceTone
        (voiceTone Settings.initial) (voiceTone target)
   ++ toggle_change ChangeIncludeVoiceover
        (includeVoiceover Settings.initial) (includeVoiceover target)
   ++ toggle_change ChangeEnableKaraoke
        (enableKaraoke Settings.initial) (enableKaraoke target)
   ++ toggle_change ChangeIncludeMusic
        (includeMusic Settings.initial) (includeMusic target))%list.

End FormEvents.

(* ================================================================== *)
(** ** Properties *)
(* ================================================================== *)

Unset Implicit Arguments.

(** The first scenario of the specification: a successful scrape, then
    the automatic advance to the settings step. *)
Example scrape_scenario :
  let w := dispatch_all mounted
    [ SubmitUrl "https://example.com/item/123";
      Settles 0 (json_response
                   {| success := Some true; session_id := Some "abc";
                      Api.sessionId := None; product_data := Some "Widget";
                      ad_script := None; video_path := None;
                      Api.status := None; Api.error := None;
                      detail := None; message := None |});
      Fires 0 ] in
  (currentStep w, status (generationData w), sessionId (generationData w))
  = (settings_step, Some "scraped", Some "abc").
Proof. reflexivity. Qed.

(** *** Helper lemmas on the runtime *)

Lemma Step_eqb_refl (s : Step) : Step_eqb s s = true.
Proof. destruct s; reflexivity. Qed.

Lemma option_eqb_refl (x : option string) : option_eqb x x = true.
Proof. destruct x as [x|]; simpl; [apply String.eqb_refl | reflexivity]. Qed.

(** No refresh unless the render ends on the results step. *)
Lemma useEffect_refresh_off_results (before after : World) :
  currentStep after <> results ->
  useEffect_refresh before after = after.
Proof.
  intros Hstep. unfold useEffect_refresh.
  destruct (Step_eqb (currentStep before) (currentStep after)
            && option_eqb (sessionId (generationData before))
                          (sessionId (generationData after))); [reflexivity|].
  destruct (currentStep after); try reflexivity. now elim Hstep.
Qed.

(** No refresh when neither dependency changed. *)
Lemma useEffect_refresh_same_deps (before after : World) :
  currentStep after = currentStep before ->
  sessionId (generationData after) = sessionId (generationData before) ->
  useEffect_refresh before after = after.
Proof.
  intros Hs Hi. unfold useEffect_refresh.
  now rewrite Hs, Hi, Step_eqb_refl, option_eqb_refl.
Qed.

(** No refresh without a session id. *)
Lemma useEffect_refresh_no_session (before after : World) :
  truthy (sessionId (generationData after)) = false ->
  useEffect_refresh before after = after.
Proof.
  intros Hf. unfold useEffect_refresh. rewrite Hf, andb_false_r.
  now destruct (_ && _).
Qed.

Lemma requests_app (a b : list Effect) :
  requests (a ++ b) = (requests a ++ requests b)%list.
Proof. apply flat_map_app. Qed.

Lemma navigations_app (a b : list Effect) :
  navigations (a ++ b) = (navigations a ++ navigations b)%list.
Proof. apply flat_map_app. Qed.

Lemma patches_app (a b : list Effect) :
  patches (a ++ b) = (patches a ++ patches b)%list.
Proof. apply flat_map_app. Qed.

Lemma progress_assigned_app (a b : list Effect) :
  progress_assigned (a ++ b)
  = (progress_assigned a ++ progress_assigned b)%list.
Proof. unfold progress_assigned. now rewrite patches_app, flat_map_app. Qed.

Lemma status_assigned_app (a b : list Effect) :
  status_assigned (a ++ b)
  = (status_assigned a ++ status_assigned b)%list.
Proof. unfold status_assigned. now rewrite patches_app, flat_map_app. Qed.

(** *** Reset *)

(** C7. From every world, mid-flight and failed ones included, the reset
    leaves [sessionId], [productData], [adScript], [videoPath] and [error]
    null, [progress] 0, [status] idle, [currentOperation] empty and the
    wizard on the input step. *)
Theorem reset_clears_everything (w : World) :
  let w' := dispatch w Reset in
  sessionId (generationData w') = None
  /\ productData (generationData w') = None
  /\ adScript (generationData w') = None
  /\ videoPath (generationData w') = None
  /\ error (generationData w') = None
  /\ progress (generationData w') = 0
  /\ status (generationData w') = Some "idle"
  /\ currentOperation (generationData w') = ""
  /\ currentStep w' = input.
Proof.
  cbv zeta. unfold dispatch.
  rewrite useEffect_refresh_off_results by (simpl; discriminate).
  simpl. repeat split.
Qed.

(** *** Precondition checks *)

(** C3. Confirming the settings while [sessionId] is unset sets [status]
    to error with the missing-session message and returns at once: no
    request is sent, nothing is left in flight or scheduled, and the only
    effects are that state update and its toast. *)
Theorem confirm_without_session_fails_locally (w : World) (s : Settings) :
  truthy (sessionId (generationData w)) = false ->
  let w' := dispatch w (ConfirmSettings s) in
  status (generationData w') = Some "error"
  /\ error (generationData w') = Some "No session ID available. Please try again."
  /\ requests (effects w') = requests (effects w)
  /\ inflight w' = inflight w
  /\ timers w' = timers w
  /\ effects w' =
       (effects w ++
        [ Performed (setGenerationData
             (failed "No session ID available. Please try again."
                     "Session error"));
          Performed (showToast
             "Session error: No session ID available. Please try again."
             "error") ])%list.
Proof.
  intros Hunset. cbv zeta. unfold dispatch, handle, handleSettingsConfirm.
  rewrite Hunset. simpl negb. cbv iota.
  rewrite useEffect_refresh_same_deps by reflexivity.
  simpl. rewrite <- app_assoc. simpl.
  repeat split.
  rewrite requests_app. simpl. apply app_nil_r.
Qed.

Lemma confirm_without_session_fails_locally_witness :
  truthy (sessionId (generationData mounted)) = false
  /\ status (generationData (dispatch mounted (ConfirmSettings Settings.initial)))
     = Some "error".
Proof.
  split; [reflexivity|].
  apply (confirm_without_session_fails_locally mounted Settings.initial).
  reflexivity.
Defined.

(** C1, as stated, fails: a download without a session id leaves [status]
    and [error] as they were. *)
Lemma download_without_session_sets_no_error :
  let w' := dispatch mounted Download in
  status (generationData w') <> Some "error"
  /\ error (generationData w') = None.
Proof. simpl. split; [discriminate | reflexivity]. Qed.

(** C1, amended. A download while [sessionId] is unset returns at once:
    no request is sent and no link is followed, the workflow state is left
    as it was, and the failure is reported by an error toast only. *)
Theorem download_without_session_only_toasts (w : World) :
  truthy (sessionId (generationData w)) = false ->
  let w' := dispatch w Download in
  generationData w' = generationData w
  /\ currentStep w' = currentStep w
  /\ requests (effects w') = requests (effects w)
  /\ navigations (effects w') = navigations (effects w)
  /\ inflight w' = inflight w
  /\ effects w' =
       (effects w ++
        [Performed (showToast "Download failed: No session ID available"
                              "error")])%list.
Proof.
  intros Hunset. cbv zeta.
  assert (Hh : handle w Download =
               run (Do (showToast "Download failed: No session ID available"
                                  "error") Done) w).
  { unfold handle, handleDownload.
    destruct (sessionId (generationData w)) as [[|c sid]|];
      [reflexivity | discriminate | reflexivity]. }
  unfold dispatch. rewrite Hh.
  rewrite useEffect_refresh_same_deps by reflexivity.
  simpl. repeat split.
  - rewrite requests_app. simpl. apply app_nil_r.
  - rewrite navigations_app. simpl. apply app_nil_r.
Qed.

Lemma download_without_session_only_toasts_witness :
  truthy (sessionId (generationData mounted)) = false
  /\ generationData (dispatch mounted Download) = generationData mounted.
Proof.
  split; [reflexivity|].
  apply (download_without_session_only_toasts mounted). reflexivity.
Defined.

(** *** The transport client *)

(** A non-2xx response always fails with a plain [Error] that carries the
    message built from the body. *)
Lemma apiRequest_http_failure (r : Response) :
  ok r = false ->
  apiRequest (Responds r) = Throw (Error (errorMessage r)).
Proof.
  intros Hok. unfold apiRequest, apiRequest_try. rewrite Hok. reflexivity.
Qed.

Lemma errorMessage_nonempty (r : Response) :
  nonempty (errorMessage r) = true.
Proof.
  unfold errorMessage.
  assert (Hfallback :
            nonempty match text r with
                     | String c s => String c s
                     | EmptyString =>
                         "HTTP " ++ of_nat (http_status r) ++ ": " ++ statusText r
                     end = true)
    by (destruct (text r); reflexivity).
  destruct (parsed r) as [e|[|errorJson]]; try exact Hfallback.
  destruct (detail errorJson) as [[|c s]|];
    try reflexivity;
    destruct (Api.message errorJson) as [[|c' s']|]; reflexivity.
Qed.

(** The scrape stage, run from any world: the call is sent and parked
    last among the calls in flight. *)
Lemma dispatch_SubmitUrl (w : World) (u : string) :
  dispatch w (SubmitUrl u) =
  {| currentStep := generating;
     url := u;
     settings := settings w;
     generationData :=
       {| sessionId := None; productData := None; adScript := None;
          videoPath := None; progress := 10; status := Some "scraping";
          error := None; currentOperation := "Scraping product data..." |};
     inflight :=
       inflight w ++
       [({| endpoint := SCRAPE; method := "POST"; body := Some [("url", u)] |},
         fun o => scrape_resume (videoAPI.scrapeProduct_result (apiRequest o)))];
     timers := timers w;
     effects :=
       effects w ++
       [ Performed (setUrl u);
         Performed (setGenerationData
           (whole {| sessionId := None; productData := None; adScript := None;
                     videoPath := None; progress := 10;
                     status := Some "scraping"; error := None;
                     currentOperation := "Scraping product data..." |}));
         Performed (setCurrentStep generating);
         Requested {| endpoint := SCRAPE; method := "POST";
                      body := Some [("url", u)] |} ] |}.
Proof.
  unfold dispatch.
  rewrite useEffect_refresh_off_results by (simpl; discriminate).
  simpl. unfold suspend. simpl. repeat rewrite <- app_assoc. reflexivity.
Qed.

Lemma nth_error_last {T : Type} (l : list T) (x : T) :
  nth_error (l ++ [x]) (length l) = Some x.
Proof. induction l as [|y l IH]; simpl; [reflexivity | exact IH]. Qed.

Lemma remove_nth_last {T : Type} (l : list T) (x : T) :
  remove_nth (length l) (l ++ [x]) = l.
Proof. induction l as [|y l IH]; simpl; [reflexivity | now rewrite IH]. Qed.

Lemma handle_Settles_last (w : World) l req k (o : FetchOutcome) :
  inflight w = (l ++ [(req, k)])%list ->
  handle w (Settles (length l) o) = run (k o) (settle (length l) w).
Proof. intros H. unfold handle. now rewrite H, nth_error_last. Qed.

Lemma handle_Fires_last (w : World) l ms callback :
  timers w = (l ++ [(ms, callback)])%list ->
  handle w (Fires (length l)) = run callback (expire (length l) w).
Proof. intros H. unfold handle. now rewrite H, nth_error_last. Qed.

(** C8, as stated, fails.  The failure that [apiRequest] reports for an
    unreachable backend is not of a kind of its own: it is the very
    [Error] that a request failure with the same text in its body gives.
    And a network failure whose message lacks the word fetch (Safari
    reports "Load failed") comes out without the hint, so that the
    workflow's error does not mention the backend. *)
Lemma network_failure_without_hint :
  let e := {| Js.name := "TypeError"; Js.message := "Load failed" |} in
  apiRequest (Rejects {| Js.name := "TypeError";
                         Js.message := "Failed to fetch" |})
  = apiRequest (Responds
      {| http_status := 500; statusText := "Internal Server Error";
         content_type := Some "application/json"; text := "";
         parsed := Parsed (JObject
           {| success := None; session_id := None; Api.sessionId := None;
              product_data := None; ad_script := None; video_path := None;
              Api.status := None; Api.error := None;
              detail := Some backend_hint; message := None |}) |})
  /\ apiRequest (Rejects e) = Throw e
  /\ includes "backend" (Js.message e) = false
  /\ error (generationData
       (dispatch_all mounted [SubmitUrl "https://example.com/item/123";
                              Settles 0 (Rejects e)]))
     = Some "Load failed".
Proof. repeat split. Qed.

(** C8, amended. When [fetch] rejects with a [TypeError] whose message
    contains the word fetch, [apiRequest] fails with the fixed hint that
    names the backend, and a scrape that fails so ends with [status] error
    and that hint as [error].  The failure is a plain [Error], as a
    request failure is: only the message tells them apart. *)
Theorem network_failure_hint (e : JsError) :
  Js.name e = "TypeError" ->
  includes "fetch" (Js.message e) = true ->
  apiRequest (Rejects e) = Throw (Error backend_hint)
  /\ includes "backend" backend_hint = true
  /\ (forall (w : World) (u : string),
        let w' := dispatch_all w [SubmitUrl u;
                                  Settles (length (inflight w)) (Rejects e)] in
        status (generationData w') = Some "error"
        /\ error (generationData w') = Some backend_hint)
  /\ (forall r : Response,
        ok r = false ->
        exists msg, apiRequest (Responds r) = Throw (Error msg)).
Proof.
  intros Hname Hmsg.
  assert (Hreq : apiRequest (Rejects e) = Throw (Error backend_hint)).
  { unfold apiRequest. simpl. rewrite Hname, Hmsg. reflexivity. }
  split; [exact Hreq|]. split; [reflexivity|]. split.
  - intros w u. cbv zeta. unfold dispatch_all. cbn [fold_left].
    rewrite dispatch_SubmitUrl. unfold dispatch.
    erewrite handle_Settles_last by reflexivity.
    cbv beta. rewrite Hreq.
    rewrite useEffect_refresh_off_results by (simpl; discriminate).
    simpl. split; reflexivity.
  - intros r Hok. exists (errorMessage r). now apply apiRequest_http_failure.
Qed.

Lemma network_failure_hint_witness :
  let e := {| Js.name := "TypeError"; Js.message := "Failed to fetch" |} in
  Js.name e = "TypeError"
  /\ includes "fetch" (Js.message e) = true
  /\ apiRequest (Rejects e) = Throw (Error backend_hint).
Proof.
  cbv zeta. split; [reflexivity|]. split; [reflexivity|].
  apply (network_failure_hint
           {| Js.name := "TypeError"; Js.message := "Failed to fetch" |});
    reflexivity.
Defined.

(** *** The create-video payload *)

Lemma mem_nonempty (v : string) (options : list string) :
  VideoSettings.mem v options = true ->
  VideoSettings.mem "" options = false ->
  nonempty v = true.
Proof. intros Hin Hout. destruct v; [congruence | reflexivity]. Qed.

(** One change that the form offers keeps the settings legal. *)
Lemma handleChange_legal (s : Settings) (c : VideoSettings.Change) :
  VideoSettings.legal s = true ->
  VideoSettings.offered c = true ->
  VideoSettings.legal (VideoSettings.handleChange s c) = true.
Proof.
  unfold VideoSettings.legal. intros Hs Hc.
  destruct s as [[a|] [t|] [v|] [k|] [o|] [m|] [b|]]; try discriminate.
  cbn [aspectRatio template voiceTone enableKaraoke includeVoiceover
       includeMusic backgroundMusic] in Hs.
  apply andb_prop in Hs as [Hs Hb]. apply andb_prop in Hs as [Hs Hv].
  apply andb_prop in Hs as [Ha Ht].
  destruct c; cbn [VideoSettings.handleChange VideoSettings.offered
                   aspectRatio template voiceTone enableKaraoke
                   includeVoiceover includeMusic backgroundMusic] in *;
    repeat (apply andb_true_intro; split); assumption.
Qed.

Lemma fill_form_legal (changes : list VideoSettings.Change) :
  forall start : Settings,
    VideoSettings.legal start = true ->
    forallb VideoSettings.offered changes = true ->
    VideoSettings.legal (VideoSettings.fill_form start changes) = true.
Proof.
  induction changes as [|c changes IH]; intros start Hstart Hall.
  - exact Hstart.
  - simpl in Hall. apply andb_prop in Hall as [Hc Hall].
    unfold VideoSettings.fill_form. simpl.
    apply IH; [now apply handleChange_legal | exact Hall].
Qed.

(** The payload read back, field by field, when every string field is a
    non-empty string and every toggle a boolean. *)
Lemma parse_settings_createVideo_form (sid a t v m : string) (k o i : bool) :
  nonempty a = true -> nonempty t = true ->
  nonempty v = true -> nonempty m = true ->
  let s := {| aspectRatio := Some a; template := Some t; voiceTone := Some v;
              enableKaraoke := Some k; includeVoiceover := Some o;
              includeMusic := Some i; backgroundMusic := Some m |} in
  StubBackend.parse_settings (videoAPI.createVideo_form sid s) = s.
Proof.
  intros Ha Ht Hv Hm.
  destruct a; [discriminate|]. destruct t; [discriminate|].
  destruct v; [discriminate|]. destruct m; [discriminate|].
  destruct k, o, i; reflexivity.
Qed.

Lemma legal_roundtrip (sid : string) (s : Settings) :
  VideoSettings.legal s = true ->
  StubBackend.parse_settings (videoAPI.createVideo_form sid s) = s.
Proof.
  unfold VideoSettings.legal. intros Hs.
  destruct s as [[a|] [t|] [v|] [k|] [o|] [m|] [b|]]; try discriminate.
  cbn [aspectRatio template voiceTone enableKaraoke includeVoiceover
       includeMusic backgroundMusic] in Hs.
  apply andb_prop in Hs as [Hs Hb]. apply andb_prop in Hs as [Hs Hv].
  apply andb_prop in Hs as [Ha Ht].
  apply parse_settings_createVideo_form;
    eapply mem_nonempty; try eassumption; reflexivity.
Qed.

(** C9. A settings object that the form produces (any series of the
    choices it offers, from the initial settings) is legal; the payload
    that [createVideo] sends for it reads back to the same object, and
    the three toggles travel as the literal strings true and false. *)
Theorem settings_payload_roundtrip
        (changes : list VideoSettings.Change)
        (sessionId : option string) (form : FormData) :
  forallb VideoSettings.offered changes = true ->
  let s := VideoSettings.fill_form Settings.initial changes in
  createVideo_payload sessionId s = Some form ->
  VideoSettings.legal s = true
  /\ StubBackend.parse_settings form = s
  /\ StubBackend.get "enable_karaoke" form
     = Some (if truthyb (enableKaraoke s) then "true" else "false")
  /\ StubBackend.get "include_voiceover" form
     = Some (if truthyb (includeVoiceover s) then "true" else "false")
  /\ StubBackend.get "include_music" form
     = Some (if truthyb (includeMusic s) then "true" else "false").
Proof.
  intros Hoffered s Hsent.
  assert (Hlegal : VideoSettings.legal s = true)
    by (apply fill_form_legal; [reflexivity | exact Hoffered]).
  unfold createVideo_payload, videoAPI.createVideo in Hsent.
  destruct sessionId as [[|c sid]|]; try discriminate.
  injection Hsent as <-.
  split; [exact Hlegal|]. split; [now apply legal_roundtrip|].
  repeat split.
Qed.

Lemma settings_payload_roundtrip_witness :
  let changes := [ VideoSettings.ChangeAspectRatio "9:16";
                   VideoSettings.ChangeEnableKaraoke false;
                   VideoSettings.ChangeBackgroundMusic "relaxed" ] in
  let s := VideoSettings.fill_form Settings.initial changes in
  forallb VideoSettings.offered changes = true
  /\ createVideo_payload (Some "abc") s
     = Some (videoAPI.createVideo_form "abc" s)
  /\ StubBackend.parse_settings (videoAPI.createVideo_form "abc" s) = s.
Proof.
  cbv zeta. split; [reflexivity|]. split; [reflexivity|].
  apply (settings_payload_roundtrip
           [ VideoSettings.ChangeAspectRatio "9:16";
             VideoSettings.ChangeEnableKaraoke false;
             VideoSettings.ChangeBackgroundMusic "relaxed" ]
           (Some "abc")); reflexivity.
Defined.

(** C10. Whatever the settings object, the payload that [createVideo]
    sends has the eight fields, each with a non-empty value: a string
    field that is missing or empty is sent as its default, and a toggle as
    true or false.  The only case without a payload is a missing session
    id, where no request is sent. *)
Theorem createVideo_payload_complete
        (sessionId : option string) (s : Settings) :
  match createVideo_payload sessionId s with
  | Some form =>
      map fst form
      = [ "session_id"; "aspect_ratio"; "template"; "voice_tone";
          "enable_karaoke"; "include_voiceover"; "background_music";
          "include_music" ]
      /\ forallb (fun field => nonempty (snd field)) form = true
      /\ (truthy (aspectRatio s) = false ->
          StubBackend.get "aspect_ratio" form = Some "16:9")
      /\ (truthy (template s) = false ->
          StubBackend.get "template" form = Some "modern")
      /\ (truthy (voiceTone s) = false ->
          StubBackend.get "voice_tone" form = Some "professional")
      /\ (truthy (backgroundMusic s) = false ->
          StubBackend.get "background_music" form = Some "corporate")
  | None => truthy sessionId = false
  end.
Proof.
  unfold createVideo_payload, videoAPI.createVideo.
  destruct sessionId as [[|c sid]|]; try reflexivity.
  cbn [body]. destruct s as [a t v k o i m].
  split; [reflexivity|]. split.
  - destruct a as [[|? ?]|], t as [[|? ?]|], v as [[|? ?]|], m as [[|? ?]|],
             k as [[|]|], o as [[|]|], i as [[|]|]; reflexivity.
  - cbn [aspectRatio template voiceTone backgroundMusic].
    repeat split; intros Hfalsy.
    + destruct a as [[|? ?]|]; [reflexivity|discriminate|reflexivity].
    + destruct t as [[|? ?]|]; [reflexivity|discriminate|reflexivity].
    + destruct v as [[|? ?]|]; [reflexivity|discriminate|reflexivity].
    + destruct m as [[|? ?]|]; [reflexivity|discriminate|reflexivity].
Qed.

(** *** The stages: what the handlers do with an outcome *)

(** The messages of the errors that [apiRequest] throws. *)
Lemma apiRequest_throw_message (o : FetchOutcome) (e : JsError) :
  apiRequest o = Throw e ->
  platform_message o = true ->
  nonempty (Js.message e) = true.
Proof.
  unfold apiRequest, apiRequest_try, platform_message.
  destruct o as [e0|r].
  - destruct (_ && _); intros [= <-] Hp; [reflexivity | exact Hp].
  - destruct (ok r); cbn [negb].
    + destruct (content_type r) as [ct|]; [|discriminate].
      destruct (_ && _); [|discriminate].
      destruct (parsed r) as [e0|v]; [|discriminate].
      destruct (_ && _); intros [= <-] Hp; [reflexivity | exact Hp].
    + cbn [Js.name Error String.eqb Ascii.eqb Bool.eqb andb].
      intros [= <-] _. apply errorMessage_nonempty.
Qed.

Lemma or_else_nonempty (a : option string) (b : string) :
  nonempty b = true -> nonempty (or_else a b) = true.
Proof. intros Hb. destruct a as [[|c s]|]; [exact Hb | reflexivity | exact Hb]. Qed.

Lemma scrapeProduct_throw_message (o : FetchOutcome) (e : JsError) :
  videoAPI.scrapeProduct_result (apiRequest o) = Throw e ->
  platform_message o = true ->
  nonempty (Js.message e) = true.
Proof.
  unfold videoAPI.scrapeProduct_result.
  destruct (apiRequest o) as [[[|result]|r]|e0] eqn:Hreq.
  - intros [= <-] _. reflexivity.
  - destruct (_ && _); [intros [= <-] _; reflexivity|].
    destruct (_ && _); discriminate.
  - intros [= <-] _. reflexivity.
  - intros [= <-]. now apply apiRequest_throw_message with (o := o).
Qed.

(** The success branch of [handleUrlSubmit]. *)
Lemma scrape_resume_success (o : FetchOutcome) (result : JsonObject) :
  scrape_success o = Some result ->
  truthy (session_id result) = true
  /\ scrape_resume (videoAPI.scrapeProduct_result (apiRequest o)) =
     Do (setGenerationData
           {| set_sessionId := Some (session_id result);
              set_productData := Some (product_data result);
              set_adScript := None; set_videoPath := None;
              set_progress := Some 25;
              set_status := Some (Some "scraped");
              set_error := None;
              set_currentOperation :=
                Some "Product data scraped successfully!" |})
    (SetTimeout 1500 (Do (setCurrentStep settings_step) Done)
    (Do (showToast "Product data scraped successfully!" "success")
     Done)).
Proof.
  unfold scrape_success, scrape_resume.
  destruct (videoAPI.scrapeProduct_result (apiRequest o)) as [res|e];
    [|discriminate].
  destruct (fields res) as [r|]; [|discriminate].
  destruct (truthyb (success r) && truthy (session_id r)) eqn:Hc;
    [|discriminate].
  intros [= <-]. apply andb_prop in Hc as [_ Hsid]. now split.
Qed.

(** Every other outcome ends in the [catch] block. *)
Lemma scrape_resume_failure (o : FetchOutcome) :
  scrape_success o = None ->
  exists e,
    scrape_resume (videoAPI.scrapeProduct_result (apiRequest o)) = scrape_catch e
    /\ (platform_message o = true -> nonempty (Js.message e) = true).
Proof.
  unfold scrape_success, scrape_resume.
  destruct (videoAPI.scrapeProduct_result (apiRequest o)) as [res|e] eqn:Hres.
  - destruct (fields res) as [r|].
    + destruct (truthyb (success r) && truthy (session_id r)); [discriminate|].
      intros _. eexists. split; [reflexivity|]. intros _.
      now apply or_else_nonempty.
    + intros _. eexists. split; [reflexivity|]. reflexivity.
  - intros _. exists e. split; [reflexivity|].
    now apply scrapeProduct_throw_message.
Qed.

(** The success branch after [generateScript]. *)
Lemma script_resume_success (sid : option string) (s : Settings)
      (o : FetchOutcome) (scriptResult : JsonObject) :
  stage_success o = Some scriptResult ->
  script_resume sid s (apiRequest o) =
  Do (setGenerationData
        {| set_sessionId := None; set_productData := None;
           set_adScript := Some (ad_script scriptResult);
           set_videoPath := None;
           set_progress := Some 50;
           set_status := Some (Some "script_generated");
           set_error := None;
           set_currentOperation := Some "AI script generated successfully!" |})
   (SetTimeout 1000 (create_video_step sid s) Done).
Proof.
  unfold stage_success, script_resume.
  destruct (apiRequest o) as [res|e]; [|discriminate].
  destruct (fields res) as [r|]; [|discriminate].
  destruct (truthyb (success r)); [|discriminate].
  now intros [= <-].
Qed.


(** The success branch after [createVideo]. *)
Lemma video_resume_success (o : FetchOutcome) (videoResult : JsonObject) :
  stage_success o = Some videoResult ->
  video_resume (apiRequest o) =
  Do (setGenerationData
        {| set_sessionId := None; set_productData := None;
           set_adScript := None;
           set_videoPath := Some (video_path videoResult);
           set_progress := Some 100;
           set_status := Some (Some "completed");
           set_error := None;
           set_currentOperation := Some "Video created successfully!" |})
   (Do (setCurrentStep results)
   (Do (showToast "Video generated successfully!" "success")
    Done)).
Proof.
  unfold stage_success, video_resume.
  destruct (apiRequest o) as [res|e]; [|discriminate].
  destruct (fields res) as [r|]; [|discriminate].
  destruct (truthyb (success r)); [|discriminate].
  now intros [= <-].
Qed.


(** *** The stages, event by event *)

Lemma dispatch_Settles_last (w : World) l req k (o : FetchOutcome) :
  inflight w = (l ++ [(req, k)])%list ->
  dispatch w (Settles (length l) o)
  = useEffect_refresh w (run (k o) (settle (length l) w)).
Proof. intros H. unfold dispatch. now rewrite (handle_Settles_last w l req k o H). Qed.

Lemma dispatch_Fires_last (w : World) l ms callback :
  timers w = (l ++ [(ms, callback)])%list ->
  dispatch w (Fires (length l))
  = useEffect_refresh w (run callback (expire (length l) w)).
Proof. intros H. unfold dispatch. now rewrite (handle_Fires_last w l ms callback H). Qed.

(** Confirming the settings with a session id: the script call is sent
    and parked last among the calls in flight. *)
Lemma dispatch_ConfirmSettings (w : World) (s : Settings) :
  truthy (sessionId (generationData w)) = true ->
  dispatch w (ConfirmSettings s) =
  let sid := sessionId (generationData w) in
  let req := {| endpoint := GENERATE_SCRIPT; method := "POST";
                body := Some [("session_id", or_else sid "");
                              ("tone", match voiceTone s with
                                       | Some t => t
                                       | None => "exciting"
                                       end)] |} in
  let p35 := {| set_sessionId := None; set_productData := None;
                set_adScript := None; set_videoPath := None;
                set_progress := Some 35;
                set_status := Some (Some "generating_script");
                set_error := Some None;
                set_currentOperation := Some "Generating AI script..." |} in
  {| currentStep := generating;
     url := url w;
     settings := s;
     generationData := apply_patch (generationData w) p35;
     inflight :=
       inflight w ++ [(req, fun o => script_resume sid s (apiRequest o))];
     timers := timers w;
     effects :=
       effects w ++
       [ Performed (setSettings s);
         Performed (setCurrentStep generating);
         Performed (setGenerationData p35);
         Requested req ] |}.
Proof.
  intros Hsid. cbv zeta. unfold dispatch, handle, handleSettingsConfirm.
  rewrite Hsid. cbn [negb].
  destruct (sessionId (generationData w)) as [[|c sid]|] eqn:E;
    try discriminate.
  rewrite useEffect_refresh_off_results by (simpl; discriminate).
  simpl. unfold suspend. simpl. repeat rewrite <- app_assoc. reflexivity.
Qed.

(** A body without [session_id] never takes the success branch. *)
Lemma scrape_success_needs_session_id (o : FetchOutcome) (b : JsonObject) :
  body_object o = Some b ->
  session_id b = None ->
  scrape_success o = None.
Proof.
  unfold body_object, scrape_success, videoAPI.scrapeProduct_result,
    apiRequest, apiRequest_try.
  destruct o as [e|r]; [discriminate|].
  destruct (parsed r) as [e|[|b']]; try discriminate.
  intros [= ->] Hsid.
  destruct (ok r); cbn [negb].
  - destruct (content_type r) as [ct|]; [|reflexivity].
    destruct (_ && _); [|reflexivity].
    rewrite Hsid. cbn [truthy negb andb].
    destruct (truthy (Api.sessionId b)); cbn [negb]; [|reflexivity].
    cbn [fields]. rewrite Hsid. cbn [truthy]. now rewrite andb_false_r.
  - reflexivity.
Qed.

(** *** Scrape responses without a session id *)

(** C5. A scrape response whose body carries no [session_id], whether or
    not it reports success, is a failure of the stage: the only values
    that [status] takes are scraping and then error (never scraped), and
    [error] ends up a non-empty message. *)
Theorem scrape_without_session_id_fails
        (w : World) (u : string) (o : FetchOutcome) (b : JsonObject) :
  body_object o = Some b ->
  session_id b = None ->
  let w' := dispatch_all w [SubmitUrl u; Settles (length (inflight w)) o] in
  status (generationData w') = Some "error"
  /\ (exists msg, error (generationData w') = Some msg /\ nonempty msg = true)
  /\ status_assigned (effects w')
     = (status_assigned (effects w) ++ [Some "scraping"; Some "error"])%list
  /\ sessionId (generationData w') = None.
Proof.
  intros Hbody Hsid. cbv zeta.
  pose proof (scrape_success_needs_session_id o b Hbody Hsid) as Hfail.
  destruct (scrape_resume_failure o Hfail) as (e & He & Hmsg).
  assert (Hp : platform_message o = true).
  { unfold body_object in Hbody. destruct o as [e0|r]; [discriminate|].
    simpl. destruct (parsed r); [discriminate | reflexivity]. }
  unfold dispatch_all. cbn [fold_left].
  rewrite dispatch_SubmitUrl.
  erewrite dispatch_Settles_last by reflexivity.
  cbv beta. rewrite He.
  rewrite useEffect_refresh_off_results by (simpl; discriminate).
  simpl. repeat split.
  - exists (Js.message e). split; [reflexivity | now apply Hmsg].
  - repeat rewrite status_assigned_app. simpl.
    repeat rewrite <- app_assoc. reflexivity.
Qed.

Lemma scrape_without_session_id_fails_witness :
  let b := {| success := Some true; session_id := None;
              Api.sessionId := None; product_data := Some "Widget";
              ad_script := None; video_path := None;
              Api.status := None; Api.error := None;
              detail := None; message := None |} in
  body_object (json_response b) = Some b
  /\ session_id b = None
  /\ status (generationData
       (dispatch_all mounted [SubmitUrl "https://example.com/item/123";
                              Settles 0 (json_response b)]))
     = Some "error".
Proof.
  cbv zeta. split; [reflexivity|]. split; [reflexivity|].
  exact (proj1 (scrape_without_session_id_fails mounted
           "https://example.com/item/123"
           (json_response
              {| success := Some true; session_id := None;
                 Api.sessionId := None; product_data := Some "Widget";
                 ad_script := None; video_path := None;
                 Api.status := None; Api.error := None;
                 detail := None; message := None |})
           _ eq_refl eq_refl)).
Defined.

(** *** Failures of the three stages *)

Lemma dispatch_all_cons (w : World) (e : Event) (es : list Event) :
  dispatch_all w (e :: es) = dispatch_all (dispatch w e) es.
Proof. reflexivity. Qed.

Ltac tidy :=
  cbv beta; cbn [run];
  unfold perform, suspend, schedule, settle, expire;
  cbn [currentStep url settings generationData inflight timers effects];
  rewrite ?remove_nth_last.

Ltac settles := erewrite dispatch_Settles_last by reflexivity; tidy.
Ltac fires := erewrite dispatch_Fires_last by reflexivity; tidy.
Ltac stays := rewrite useEffect_refresh_off_results by (simpl; discriminate).

(** The world in which the create-video call is in flight. *)
Lemma video_in_flight (w : World) (s : Settings) (o2 : FetchOutcome)
      (r2 : JsonObject) (c : ascii) (sid : string) :
  sessionId (generationData w) = Some (String c sid) ->
  stage_success o2 = Some r2 ->
  exists w3,
    dispatch_all w [ConfirmSettings s; Settles (length (inflight w)) o2;
                    Fires (length (timers w))] = w3
    /\ currentStep w3 = generating
    /\ timers w3 = timers w
    /\ inflight w3 =
       (inflight w ++
        [({| endpoint := CREATE_VIDEO; method := "POST";
             body := Some (videoAPI.createVideo_form (String c sid) s) |},
          fun o => video_resume (apiRequest o))])%list
    /\ generationData w3 =
       {| sessionId := Some (String c sid);
          productData := productData (generationData w);
          adScript := ad_script r2;
          videoPath := videoPath (generationData w);
          progress := 60;
          status := Some "creating_video";
          error := None;
          currentOperation := "Creating video with AI..." |}
    /\ progress_assigned (effects w3)
       = (progress_assigned (effects w) ++ [35; 50; 60])%list.
Proof.
  intros Hsid H2. eexists. split.
  - rewrite dispatch_all_cons.
    rewrite dispatch_ConfirmSettings by (now rewrite Hsid).
    cbv zeta. rewrite Hsid.
    rewrite dispatch_all_cons. settles.
    rewrite (script_resume_success _ _ o2 r2 H2). tidy. stays.
    rewrite dispatch_all_cons. fires.
    unfold create_video_step, videoAPI.createVideo. tidy. stays.
    unfold dispatch_all. cbn [fold_left]. reflexivity.
  - cbn [currentStep timers inflight generationData effects].
    do 3 (split; [reflexivity|]). split.
    + unfold apply_patch, upd; cbn. now rewrite Hsid.
    + repeat rewrite progress_assigned_app. cbn.
      repeat rewrite <- app_assoc. reflexivity.
Qed.


(** What a [catch] block leaves behind. *)
Lemma failed_on_after_catch (before w : World) (e : JsError)
      (operation toast : string) (step : Step) :
  currentStep w = step ->
  step <> results ->
  nonempty (Js.message e) = true ->
  failed_on step
    (useEffect_refresh before
       (run (Do (setGenerationData (failed (Js.message e) operation))
            (Do (showToast toast "error") Done)) w)).
Proof.
  intros Hstep Hnot Hmsg.
  rewrite useEffect_refresh_off_results by (simpl; congruence).
  unfold failed_on. simpl. split; [exact Hstep|]. split; [reflexivity|].
  exists (Js.message e). now split.
Qed.





(** *** Progress *)

Lemma never_zero_scrape_resume (c : Completion ApiResult) :
  never_zero (scrape_resume c).
Proof.
  unfold scrape_resume, scrape_catch.
  destruct c as [res|e]; [destruct (fields res) as [r|];
    [destruct (_ && _)|]|]; simpl; repeat split; discriminate.
Qed.

Lemma never_zero_video_resume (c : Completion ApiResult) :
  never_zero (video_resume c).
Proof.
  unfold video_resume, video_catch.
  destruct c as [res|e]; [destruct (fields res) as [r|];
    [destruct (truthyb _)|]|]; simpl; repeat split; discriminate.
Qed.

Lemma never_zero_create_video_step (sid : option string) (s : Settings) :
  never_zero (create_video_step sid s).
Proof.
  unfold create_video_step, videoAPI.createVideo. cbn [never_zero].
  split; [discriminate|].
  destruct sid as [[|c sid]|]; cbn [never_zero];
    try (intros o); apply never_zero_video_resume.
Qed.

Lemma never_zero_script_resume (sid : option string) (s : Settings)
      (c : Completion ApiResult) :
  never_zero (script_resume sid s c).
Proof.
  unfold script_resume, script_catch.
  destruct c as [res|e]; [destruct (fields res) as [r|];
    [destruct (negb _)|]|]; cbn [never_zero]; repeat split; try discriminate.
  apply never_zero_create_video_step.
Qed.

Lemma never_zero_refresh_resume (c : Completion ApiResult) :
  never_zero (refresh_resume c).
Proof.
  unfold refresh_resume.
  destruct c as [res|e]; [destruct (fields res) as [r|]|];
    cbn [never_zero]; repeat split; discriminate.
Qed.

Lemma never_zero_refreshSessionData (g : GenerationData) :
  never_zero (refreshSessionData g).
Proof.
  unfold refreshSessionData, videoAPI.getSessionData.
  destruct (sessionId g) as [[|c sid]|]; cbn [never_zero];
    try (intros o); apply never_zero_refresh_resume.
Qed.

Lemma never_zero_handleUrlSubmit (u : string) :
  never_zero (handleUrlSubmit u).
Proof.
  unfold handleUrlSubmit, videoAPI.scrapeProduct. cbn [never_zero].
  repeat split; try discriminate. intros o. apply never_zero_scrape_resume.
Qed.

Lemma never_zero_handleSettingsConfirm (g : GenerationData) (s : Settings) :
  never_zero (handleSettingsConfirm g s).
Proof.
  unfold handleSettingsConfirm, videoAPI.generateScript.
  destruct (sessionId g) as [[|c sid]|]; cbn [never_zero]; repeat split;
    try discriminate.
  intros o. apply never_zero_script_resume.
Qed.

Lemma never_zero_handleDownload (g : GenerationData) :
  never_zero (handleDownload g).
Proof.
  unfold handleDownload.
  destruct (sessionId g) as [[|c sid]|]; cbn [never_zero]; repeat split.
Qed.

(** Running a script that never assigns 0 keeps a non-zero [progress]
    non-zero, and parks only scripts of the same kind. *)
Lemma run_never_zero (p : Prog Action) :
  forall w : World,
    never_zero p ->
    parked_never_zero w ->
    parked_never_zero (run p w)
    /\ (progress (generationData w) <> 0 ->
        progress (generationData (run p w)) <> 0).
Proof.
  induction p as [|a k IH|req k IH|ms callback _ k IH];
    intros w Hp [Hcalls Htimers]; simpl in *.
  - split; [now split | auto].
  - destruct Hp as [Ha Hk].
    destruct (IH (perform a w) Hk) as [Hinv Hprog]; [now split|].
    split; [exact Hinv|]. intros Hw. apply Hprog.
    destruct a as [pt| | | | | |]; simpl; try exact Hw.
    unfold upd. destruct (set_progress pt) as [n|]; [|exact Hw].
    intros ->. now apply Ha.
  - split; [|auto]. split; [|exact Htimers]. simpl.
    apply Forall_app. split; [exact Hcalls|]. now constructor.
  - destruct Hp as [Hcb Hk].
    destruct (IH (schedule ms callback w) Hk) as [Hinv Hprog].
    + split; [exact Hcalls|]. simpl.
      apply Forall_app. split; [exact Htimers|]. now constructor.
    + split; [exact Hinv | exact Hprog].
Qed.

Lemma Forall_remove_nth {T : Type} (P : T -> Prop) (i : nat) :
  forall l : list T, Forall P l -> Forall P (remove_nth i l).
Proof.
  induction i as [|i IH]; intros [|x l] H; simpl; try constructor;
    inversion H; subst; auto.
Qed.

Lemma Forall_nth_error {T : Type} (P : T -> Prop) (l : list T) (i : nat) (x : T) :
  Forall P l -> nth_error l i = Some x -> P x.
Proof.
  intros H Hn. rewrite Forall_forall in H. apply H.
  now apply nth_error_In with (n := i).
Qed.

(** One event other than a reset keeps a non-zero [progress] non-zero;
    every event keeps the parked scripts of that kind. *)
Lemma handle_never_zero (w : World) (e : Event) :
  parked_never_zero w ->
  parked_never_zero (handle w e)
  /\ (e <> Reset ->
      progress (generationData w) <> 0 ->
      progress (generationData (handle w e)) <> 0).
Proof.
  intros Hinv.
  assert (Hrun : forall p, never_zero p ->
            parked_never_zero (run p w)
            /\ (e <> Reset -> progress (generationData w) <> 0 ->
                progress (generationData (run p w)) <> 0)).
  { intros p Hp. destruct (run_never_zero p w Hp Hinv) as [H1 H2].
    split; [exact H1 | intros _; exact H2]. }
  destruct e as [u|s|s| | | |i o|i]; cbn [handle].
  - apply Hrun, never_zero_handleUrlSubmit.
  - apply Hrun. simpl. now split.
  - apply Hrun, never_zero_handleSettingsConfirm.
  - apply Hrun. simpl. now split.
  - split; [|intros Hne; now elim Hne].
    destruct Hinv as [Hc Ht]. split; assumption.
  - apply Hrun, never_zero_handleDownload.
  - destruct (nth_error (inflight w) i) as [[req k]|] eqn:Hn.
    + destruct Hinv as [Hc Ht].
      pose proof (Forall_nth_error _ _ _ _ Hc Hn o) as Hk. simpl in Hk.
      destruct (run_never_zero (k o) (settle i w) Hk) as [H1 H2].
      * split; [now apply Forall_remove_nth | exact Ht].
      * split; [exact H1 | intros _; exact H2].
    + split; [exact Hinv | auto].
  - destruct (nth_error (timers w) i) as [[ms callback]|] eqn:Hn.
    + destruct Hinv as [Hc Ht].
      pose proof (Forall_nth_error _ _ _ _ Ht Hn) as Hk. simpl in Hk.
      destruct (run_never_zero callback (expire i w) Hk) as [H1 H2].
      * split; [exact Hc | now apply Forall_remove_nth].
      * split; [exact H1 | intros _; exact H2].
    + split; [exact Hinv | auto].
Qed.

Lemma dispatch_never_zero (w : World) (e : Event) :
  parked_never_zero w ->
  parked_never_zero (dispatch w e)
  /\ (e <> Reset ->
      progress (generationData w) <> 0 ->
      progress (generationData (dispatch w e)) <> 0).
Proof.
  intros Hinv. destruct (handle_never_zero w e Hinv) as [H1 H2].
  unfold dispatch, useEffect_refresh.
  destruct (_ && _); [now split|].
  destruct (_ && _); [|now split].
  destruct (run_never_zero (refreshSessionData (generationData (handle w e)))
              (handle w e) (never_zero_refreshSessionData _) H1) as [H3 H4].
  split; [exact H3|]. intros Hne Hw. apply H4. now apply H2.
Qed.

Lemma dispatch_all_never_zero (es : list Event) :
  forall w : World,
    parked_never_zero w -> parked_never_zero (dispatch_all w es).
Proof.
  induction es as [|e es IH]; intros w Hinv; [exact Hinv|].
  rewrite dispatch_all_cons. apply IH. now apply dispatch_never_zero.
Qed.

Lemma dispatch_all_app (w : World) (es es' : list Event) :
  dispatch_all w (es ++ es') = dispatch_all (dispatch_all w es) es'.
Proof. unfold dispatch_all. apply fold_left_app. Qed.

(** The world after a successful scrape and the automatic advance to
    the settings step. *)
Lemma scrape_completes (w : World) (u : string) (o1 : FetchOutcome)
      (r1 : JsonObject) :
  scrape_success o1 = Some r1 ->
  exists w2,
    dispatch_all w [SubmitUrl u; Settles (length (inflight w)) o1;
                    Fires (length (timers w))] = w2
    /\ currentStep w2 = settings_step
    /\ inflight w2 = inflight w
    /\ timers w2 = timers w
    /\ generationData w2 =
       {| sessionId := session_id r1;
          productData := product_data r1;
          adScript := None; videoPath := None;
          progress := 25; status := Some "scraped"; error := None;
          currentOperation := "Product data scraped successfully!" |}
    /\ progress_assigned (effects w2)
       = (progress_assigned (effects w) ++ [10; 25])%list.
Proof.
  intros H1. destruct (scrape_resume_success o1 r1 H1) as [_ Hres].
  eexists. split.
  - rewrite dispatch_all_cons, dispatch_SubmitUrl.
    rewrite dispatch_all_cons. settles. rewrite Hres. tidy. stays.
    rewrite dispatch_all_cons. fires. stays.
    unfold dispatch_all. cbn [fold_left]. reflexivity.
  - cbn [currentStep timers inflight generationData effects].
    do 4 (split; [reflexivity|]).
    repeat rewrite progress_assigned_app. cbn.
    repeat rewrite <- app_assoc. reflexivity.
Qed.

(** The refresh of the results step assigns no [progress] and changes
    neither dependency of its effect. *)
Lemma refresh_resume_quiet (c : Completion ApiResult) (w : World) :
  let w' := run (refresh_resume c) w in
  currentStep w' = currentStep w
  /\ sessionId (generationData w') = sessionId (generationData w)
  /\ progress (generationData w') = progress (generationData w)
  /\ progress_assigned (effects w') = progress_assigned (effects w).
Proof.
  unfold refresh_resume.
  destruct c as [res|e]; [destruct (fields res) as [r|]|];
    simpl; repeat split; try reflexivity;
    rewrite progress_assigned_app; simpl; apply app_nil_r.
Qed.

Lemma sessionId_apply_patch (g : GenerationData) (p : Patch) :
  sessionId (apply_patch g p) = upd (set_sessionId p) (sessionId g).
Proof. reflexivity. Qed.

(** The world after a successful create-video response: the results
    step, with the refresh of the session record in flight. *)
Lemma video_completes (w3 : World) l req (c : ascii) (sid : string)
      (o3 : FetchOutcome) (r3 : JsonObject) :
  inflight w3 = (l ++ [(req, fun o => video_resume (apiRequest o))])%list ->
  currentStep w3 = generating ->
  sessionId (generationData w3) = Some (String c sid) ->
  stage_success o3 = Some r3 ->
  exists w4,
    dispatch w3 (Settles (length l) o3) = w4
    /\ currentStep w4 = results
    /\ status (generationData w4) = Some "completed"
    /\ progress (generationData w4) = 100
    /\ videoPath (generationData w4) = video_path r3
    /\ sessionId (generationData w4) = Some (String c sid)
    /\ inflight w4 =
       (l ++ [({| endpoint := SESSION_DATA (String c sid); method := "GET";
                  body := None |},
               fun o => refresh_resume (apiRequest o))])%list
    /\ progress_assigned (effects w4)
       = (progress_assigned (effects w3) ++ [100])%list.
Proof.
  intros Hin Hstep Hsid H3. eexists. split.
  - rewrite (dispatch_Settles_last w3 l req _ o3 Hin). cbv beta.
    rewrite (video_resume_success o3 r3 H3).
    unfold useEffect_refresh. tidy. rewrite Hin, remove_nth_last, Hstep.
    cbn [Step_eqb andb]. unfold refreshSessionData.
    rewrite !sessionId_apply_patch. cbn [set_sessionId upd].
    rewrite Hsid. cbn [truthy].
    unfold videoAPI.getSessionData. tidy. reflexivity.
  - cbn [currentStep timers inflight generationData effects].
    split; [reflexivity|].
    unfold apply_patch.
    cbn [status progress videoPath sessionId set_status set_progress
         set_videoPath set_sessionId upd].
    do 3 (split; [reflexivity|]). split; [exact Hsid|].
    split; [reflexivity|].
    repeat rewrite progress_assigned_app. cbn.
    repeat rewrite <- app_assoc. reflexivity.
Qed.

Lemma parked_never_zero_mounted : parked_never_zero mounted.
Proof. split; constructor. Qed.

Lemma dispatch_ChangeSettings (w : World) (s : Settings) :
  dispatch w (ChangeSettings s) =
  {| currentStep := currentStep w; url := url w; settings := s;
     generationData := generationData w;
     inflight := inflight w; timers := timers w;
     effects := effects w ++ [Performed (setSettings s)] |}.
Proof.
  unfold dispatch. now rewrite useEffect_refresh_same_deps.
Qed.

(** Editing the form changes the settings and nothing else. *)
Lemma edits_are_quiet (edits : list Settings) :
  forall w : World,
    let w' := dispatch_all w (map ChangeSettings edits) in
    currentStep w' = currentStep w
    /\ generationData w' = generationData w
    /\ inflight w' = inflight w
    /\ timers w' = timers w
    /\ progress_assigned (effects w') = progress_assigned (effects w).
Proof.
  induction edits as [|s edits IH]; intros w; cbv zeta.
  - repeat split.
  - cbn [map]. rewrite dispatch_all_cons, dispatch_ChangeSettings.
    destruct (IH {| currentStep := currentStep w; url := url w; settings := s;
                    generationData := generationData w;
                    inflight := inflight w; timers := timers w;
                    effects := effects w ++ [Performed (setSettings s)] |})
      as (H1 & H2 & H3 & H4 & H5).
    cbv zeta in H1, H2, H3, H4, H5.
    rewrite H1, H2, H3, H4, H5. cbn [currentStep generationData inflight
                                      timers effects].
    rewrite progress_assigned_app. cbn. rewrite app_nil_r. repeat split.
Qed.

(** C4. Along a run in which no stage fails (a successful scrape, the
    automatic advance, any edits of the settings form and its
    confirmation, a successful script, the scheduled video step, a
    successful video) the values assigned to [progress] are exactly 10,
    25, 35, 50, 60, 100, in that order, hence non-decreasing; the refresh
    of the results step assigns none.  And no event but the reset takes
    [progress] from a non-zero value to 0. *)
Theorem progress_checkpoints
        (w : World) (u : string) (edits : list Settings) (s : Settings)
        (o1 o2 o3 : FetchOutcome) (r1 r2 r3 : JsonObject) :
  scrape_success o1 = Some r1 ->
  stage_success o2 = Some r2 ->
  stage_success o3 = Some r3 ->
  let n := length (inflight w) in
  let m := length (timers w) in
  let w' := dispatch_all w
              ([ SubmitUrl u; Settles n o1; Fires m ]
               ++ map ChangeSettings edits
               ++ [ ConfirmSettings s; Settles n o2; Fires m;
                    Settles n o3 ]) in
  currentStep w' = results
  /\ status (generationData w') = Some "completed"
  /\ progress_assigned (effects w')
     = (progress_assigned (effects w) ++ [10; 25; 35; 50; 60; 100])%list
  /\ nondecreasing [10; 25; 35; 50; 60; 100] = true
  /\ (forall o4 : FetchOutcome,
        progress_assigned (effects (dispatch w' (Settles n o4)))
        = progress_assigned (effects w'))
  /\ (forall (es : list Event) (e : Event),
        let w0 := dispatch_all mounted es in
        progress (generationData (dispatch w0 e)) = 0 ->
        progress (generationData w0) = 0 \/ e = Reset).
Proof.
  intros H1 H2 H3. cbv zeta.
  destruct (scrape_resume_success o1 r1 H1) as [Htruthy _].
  destruct (scrape_completes w u o1 r1 H1)
    as (w1 & E1 & Hstep1 & Hin1 & Htm1 & Hdata1 & Hprog1).
  destruct (edits_are_quiet edits w1) as (_ & Hdata2 & Hin2 & Htm2 & Hprog2).
  cbv zeta in Hdata2, Hin2, Htm2, Hprog2.
  set (w2 := dispatch_all w1 (map ChangeSettings edits)) in *.
  assert (Hsid2 : sessionId (generationData w2) = session_id r1)
    by (now rewrite Hdata2, Hdata1).
  destruct (session_id r1) as [[|c sid]|]; try discriminate.
  destruct (video_in_flight w2 s o2 r2 c sid Hsid2 H2)
    as (w3 & E3 & Hstep3 & Htm3 & Hin3 & Hdata3 & Hprog3).
  assert (Hsid3 : sessionId (generationData w3) = Some (String c sid))
    by (now rewrite Hdata3).
  destruct (video_completes w3 (inflight w2) _ c sid o3 r3
              Hin3 Hstep3 Hsid3 H3)
    as (w4 & E4 & Hstep4 & Hstatus4 & _ & _ & Hsid4 & Hin4 & Hprog4).
  assert (Hlen_in : length (inflight w) = length (inflight w2))
    by (now rewrite Hin2, Hin1).
  assert (Hlen_tm : length (timers w) = length (timers w2))
    by (now rewrite Htm2, Htm1).
  assert (Hrun :
    dispatch_all w
      ([ SubmitUrl u; Settles (length (inflight w)) o1;
         Fires (length (timers w)) ]
       ++ map ChangeSettings edits
       ++ [ ConfirmSettings s; Settles (length (inflight w)) o2;
            Fires (length (timers w));
            Settles (length (inflight w)) o3 ]) = w4).
  { change [ ConfirmSettings s; Settles (length (inflight w)) o2;
             Fires (length (timers w));
             Settles (length (inflight w)) o3 ]
      with ([ ConfirmSettings s; Settles (length (inflight w)) o2;
              Fires (length (timers w)) ]
            ++ [ Settles (length (inflight w)) o3 ])%list.
    rewrite !dispatch_all_app, E1. fold w2.
    rewrite Hlen_in, Hlen_tm, E3. exact E4. }
  rewrite Hrun.
  split; [exact Hstep4|]. split; [exact Hstatus4|].
  assert (Hprog : progress_assigned (effects w4)
                  = (progress_assigned (effects w)
                     ++ [10; 25; 35; 50; 60; 100])%list).
  { rewrite Hprog4, Hprog3, Hprog2, Hprog1. now rewrite <- !app_assoc. }
  split; [exact Hprog|]. split; [reflexivity|]. split.
  - intros o4. rewrite Hlen_in.
    rewrite (dispatch_Settles_last w4 _ _ _ o4 Hin4). cbv beta.
    destruct (refresh_resume_quiet (apiRequest o4)
                (settle (length (inflight w2)) w4))
      as (Hs & Hi & _ & Hp).
    rewrite useEffect_refresh_same_deps; [exact Hp | exact Hs | exact Hi].
  - intros es e Hzero.
    destruct (Nat.eq_dec
                (progress (generationData (dispatch_all mounted es))) 0)
      as [Hz|Hnz]; [now left | right].
    destruct (dispatch_never_zero (dispatch_all mounted es) e) as [_ Hkeep].
    { apply dispatch_all_never_zero, parked_never_zero_mounted. }
    destruct e; try reflexivity; exfalso;
      (apply Hkeep; [discriminate | exact Hnz | exact Hzero]).
Qed.

Lemma progress_checkpoints_witness :
  scrape_success (json_response sample_body) = Some sample_body
  /\ stage_success (json_response sample_body) = Some sample_body
  /\ progress_assigned
       (effects
          (dispatch_all mounted
             [ SubmitUrl "https://example.com/item/123";
               Settles 0 (json_response sample_body); Fires 0;
               ChangeSettings Settings.initial;
               ConfirmSettings Settings.initial;
               Settles 0 (json_response sample_body); Fires 0;
               Settles 0 (json_response sample_body) ]))
     = [10; 25; 35; 50; 60; 100].
Proof.
  split; [reflexivity|]. split; [reflexivity|].
  exact (proj1 (proj2 (proj2
    (progress_checkpoints mounted "https://example.com/item/123"
       [Settings.initial] Settings.initial
       (json_response sample_body) (json_response sample_body)
       (json_response sample_body) sample_body sample_body sample_body
       eq_refl eq_refl eq_refl)))).
Defined.

(** *** A reset while a call is in flight *)

Lemma dispatch_Reset (w : World) :
  dispatch w Reset =
  {| currentStep := input; url := ""; settings := settings w;
     generationData := idle_data;
     inflight := inflight w; timers := timers w;
     effects :=
       effects w ++
       [ Performed (setCurrentStep input); Performed (setUrl "");
         Performed (setGenerationData (whole idle_data)) ] |}.
Proof.
  unfold dispatch.
  rewrite useEffect_refresh_off_results by (simpl; discriminate).
  cbn [handle handleReset run]. unfold perform.
  cbn [currentStep url settings generationData inflight timers effects].
  repeat rewrite <- app_assoc. reflexivity.
Qed.

(** C2.  The code diverges from the claim: the user submits a URL,
    cancels while the scrape is in flight (the reset is on offer then),
    and the scrape response arrives afterwards.  The reset has cleared the
    state, yet the late response is applied to it: [status] becomes
    scraped, [progress] 25, the session id and product data of the
    abandoned attempt are stored, and the timer it sets then moves the
    wizard from the input step to the settings step. *)
Lemma late_scrape_response_is_applied :
  let scraping := dispatch mounted (SubmitUrl "https://example.com/item/123") in
  let cleared := dispatch scraping Reset in
  let late := dispatch cleared (Settles 0 (json_response sample_body)) in
  available scraping Reset = true
  /\ available cleared (Settles 0 (json_response sample_body)) = true
  /\ generationData cleared = idle_data
  /\ status (generationData late) = Some "scraped"
  /\ progress (generationData late) = 25
  /\ sessionId (generationData late) = Some "abc"
  /\ productData (generationData late) = Some "Widget"
  /\ generationData late <> generationData cleared
  /\ currentStep late = input
  /\ currentStep (dispatch late (Fires 0)) = settings_step.
Proof. cbv zeta. repeat split. discriminate. Qed.

(** What a response does when it arrives after a reset, in general.  The
    reset clears the state at once but cancels nothing: the call stays in
    flight, and when its response arrives the rest of the stale handler
    runs on the cleared state as it would on any other.  A late scrape
    success stores the session id and the product data with [status]
    scraped and [progress] 25; a late script success stores the script
    with [progress] 50 and still schedules the video step for the session
    id it captured; a late video success stores the video path with
    [progress] 100 and moves the wizard to the results step; a late
    failure sets [status] to error. *)
Theorem late_response_runs_on_reset_state
        (w : World) (u : string) (s : Settings)
        (o : FetchOutcome) (r : JsonObject) :
  let n := length (inflight w) in
  (* the reset itself *)
  (generationData (dispatch w Reset) = idle_data
   /\ inflight (dispatch w Reset) = inflight w
   /\ timers (dispatch w Reset) = timers w)
  (* scrape in flight *)
  /\ (scrape_success o = Some r ->
      let w' := dispatch_all w [SubmitUrl u; Reset; Settles n o] in
      currentStep w' = input
      /\ generationData w' =
         {| sessionId := session_id r; productData := product_data r;
            adScript := None; videoPath := None;
            progress := 25; status := Some "scraped"; error := None;
            currentOperation := "Product data scraped successfully!" |})
  /\ (scrape_success o = None ->
      let w' := dispatch_all w [SubmitUrl u; Reset; Settles n o] in
      currentStep w' = input /\ status (generationData w') = Some "error")
  (* generate-script in flight *)
  /\ (truthy (sessionId (generationData w)) = true ->
      stage_success o = Some r ->
      let w' := dispatch_all w [ConfirmSettings s; Reset; Settles n o] in
      currentStep w' = input
      /\ generationData w' =
         {| sessionId := None; productData := None;
            adScript := ad_script r; videoPath := None;
            progress := 50; status := Some "script_generated"; error := None;
            currentOperation := "AI script generated successfully!" |}
      /\ timers w' =
         (timers w ++
          [(1000, create_video_step (sessionId (generationData w)) s)])%list)
  (* create-video in flight *)
  /\ (forall (o2 : FetchOutcome) (r2 : JsonObject),
        truthy (sessionId (generationData w)) = true ->
        stage_success o2 = Some r2 ->
        stage_success o = Some r ->
        let w' := dispatch_all w [ConfirmSettings s; Settles n o2;
                                  Fires (length (timers w));
                                  Reset; Settles n o] in
        currentStep w' = results
        /\ generationData w' =
           {| sessionId := None; productData := None;
              adScript := None; videoPath := video_path r;
              progress := 100; status := Some "completed"; error := None;
              currentOperation := "Video created successfully!" |}).
Proof.
  cbv zeta. split; [|split; [|split; [|split]]].
  - rewrite dispatch_Reset. repeat split.
  - intros Hok. destruct (scrape_resume_success o r Hok) as [_ Hres].
    rewrite dispatch_all_cons, dispatch_SubmitUrl.
    rewrite dispatch_all_cons, dispatch_Reset. tidy.
    rewrite dispatch_all_cons. settles. rewrite Hres. tidy. stays.
    unfold dispatch_all. cbn [fold_left]. split; reflexivity.
  - intros Hfail. destruct (scrape_resume_failure o Hfail) as (e & He & _).
    rewrite dispatch_all_cons, dispatch_SubmitUrl.
    rewrite dispatch_all_cons, dispatch_Reset. tidy.
    rewrite dispatch_all_cons. settles. rewrite He.
    unfold scrape_catch. tidy. stays.
    unfold dispatch_all. cbn [fold_left]. split; reflexivity.
  - intros Hsid Hok.
    rewrite dispatch_all_cons, dispatch_ConfirmSettings by exact Hsid.
    cbv zeta. rewrite dispatch_all_cons, dispatch_Reset. tidy.
    rewrite dispatch_all_cons. settles.
    rewrite (script_resume_success _ _ o r Hok). tidy. stays.
    unfold dispatch_all. cbn [fold_left]. repeat split.
  - intros o2 r2 Hsid H2 Hok.
    destruct (sessionId (generationData w)) as [[|c sid]|] eqn:Esid;
      try discriminate.
    destruct (video_in_flight w s o2 r2 c sid Esid H2)
      as (w3 & E & _ & _ & Hin & _).
    change [ConfirmSettings s; Settles (length (inflight w)) o2;
            Fires (length (timers w)); Reset;
            Settles (length (inflight w)) o]
      with ([ConfirmSettings s; Settles (length (inflight w)) o2;
             Fires (length (timers w))]
            ++ [Reset; Settles (length (inflight w)) o])%list.
    rewrite dispatch_all_app, E.
    rewrite dispatch_all_cons, dispatch_Reset. rewrite Hin.
    rewrite dispatch_all_cons. settles.
    rewrite (video_resume_success o r Hok). tidy.
    rewrite useEffect_refresh_no_session by reflexivity.
    unfold dispatch_all. cbn [fold_left]. split; reflexivity.
Qed.


(* ================================================================== *)
(** ** Further properties of the components *)
(* ================================================================== *)

(** *** GenerationProgress *)

(** X1. While [status] is one of the six steps of the list, the steps
    before it are completed, it is the active one, and the steps after it
    are pending. *)
Theorem getStepStatus_follows_the_list (i j : nat) :
  i < 6 -> j < 6 ->
  GenerationProgress.getStepStatus
    (Some (nth i GenerationProgress.steps ""))
    (nth j GenerationProgress.steps "")
  = if Nat.ltb j i then "completed"
    else if Nat.eqb j i then "active"
    else "pending".
Proof.
  intros Hi Hj.
  do 6 (destruct i as [|i];
        [do 6 (destruct j as [|j]; [reflexivity|]); lia|]).
  lia.
Qed.

Lemma getStepStatus_follows_the_list_witness :
  2 < 6 /\ 1 < 6
  /\ GenerationProgress.getStepStatus (Some "generating_script") "scraped"
     = "completed".
Proof.
  split; [lia|]. split; [lia|].
  apply (getStepStatus_follows_the_list 2 1); lia.
Defined.

(** X2. With a [status] that is not in the list (error, idle, a missing
    one, anything the backend's session record holds) every step of the
    list is pending: no step is ever drawn as failed. *)
Theorem getStepStatus_unlisted_status
        (status : option Scalar) (stepKey : string) :
  ~ In status (map (fun key : string => Some (Str key))
                   GenerationProgress.steps) ->
  In stepKey GenerationProgress.steps ->
  GenerationProgress.getStepStatus status stepKey = "pending".
Proof.
  intros Hstatus Hkey.
  assert (Hno : forall key : string, In key GenerationProgress.steps ->
                            strict_eqb (Some (Str key)) status = false).
  { intros key Hin. destruct status as [[s|n]|]; [|reflexivity|reflexivity].
    simpl. apply String.eqb_neq. intros ->.
    apply Hstatus.
    exact (in_map (fun key : string => Some (Str key)) _ _ Hin). }
  unfold GenerationProgress.getStepStatus, GenerationProgress.findIndex.
  assert (Hcur : GenerationProgress.findIndex_from 0
                   (fun key : string => strict_eqb (Some (Str key)) status)
                   GenerationProgress.steps = (-1)%Z).
  { unfold GenerationProgress.steps in *. cbn [GenerationProgress.findIndex_from].
    rewrite !Hno by (simpl; tauto). reflexivity. }
  rewrite Hcur.
  simpl in Hkey.
  destruct Hkey as [<-|[<-|[<-|[<-|[<-|[<-|[]]]]]]];
    destruct (strict_eqb status (Some "error")); reflexivity.
Qed.

Lemma getStepStatus_unlisted_status_witness :
  ~ In (Some (Str "error"))
       (map (fun key : string => Some (Str key)) GenerationProgress.steps)
  /\ In "creating_video" GenerationProgress.steps
  /\ GenerationProgress.getStepStatus (Some "error") "creating_video"
     = "pending".
Proof.
  assert (H : ~ In (Some (Str "error"))
                   (map (fun key : string => Some (Str key))
                        GenerationProgress.steps)).
  { simpl. intros [H|[H|[H|[H|[H|[H|[]]]]]]]; discriminate H. }
  split; [exact H|].
  assert (H' : In "creating_video" GenerationProgress.steps)
    by (simpl; tauto).
  split; [exact H'|].
  exact (getStepStatus_unlisted_status (Some (Str "error")) "creating_video" H H').
Defined.

(** *** The header of the wizard *)

(** X3. The header marks a step as current when it is the current one,
    as finished when it lies strictly between the input step and the
    current one, and plainly otherwise: the input step itself is never
    marked as finished, however far the wizard has gone. *)
Theorem wizard_marks (currentStep key : Step) :
  Wizard.mark currentStep key
  = (if Step_eqb currentStep key then Wizard.current
     else if Nat.ltb 0 (Wizard.place key)
             && Nat.ltb (Wizard.place key) (Wizard.place currentStep)
     then Wizard.finished
     else Wizard.plain)
  /\ Wizard.mark currentStep input <> Wizard.finished.
Proof. destruct currentStep, key; split; (reflexivity || discriminate). Qed.

(** *** ScriptPreview *)

Lemma length_split (s : string) :
  length (ScriptPreview.split s) = S (ScriptPreview.spaces s).
Proof.
  induction s as [|c s IH]; [reflexivity|].
  simpl. destruct (Ascii.eqb c " "); simpl; [now rewrite IH|].
  destruct (ScriptPreview.split s); simpl in *; [discriminate | exact IH].
Qed.

Lemma spaces_append (a b : string) :
  ScriptPreview.spaces (a ++ b)
  = ScriptPreview.spaces a + ScriptPreview.spaces b.
Proof. induction a as [|c a IH]; simpl; [reflexivity | rewrite IH; lia]. Qed.

Lemma word_count_of_join (x : string) (xs : list string) :
  length (ScriptPreview.split (ScriptPreview.join (x :: xs)))
  = list_sum (map (fun s => length (ScriptPreview.split s)) (x :: xs)).
Proof.
  revert x. induction xs as [|y ys IH]; intros x.
  - simpl. lia.
  - change (ScriptPreview.join (x :: y :: ys))
      with (x ++ " " ++ ScriptPreview.join (y :: ys)).
    rewrite length_split, !spaces_append.
    change (map (fun s => length (ScriptPreview.split s)) (x :: y :: ys))
      with (length (ScriptPreview.split x)
            :: map (fun s => length (ScriptPreview.split s)) (y :: ys)).
    cbn [list_sum fold_right]. fold (list_sum
      (map (fun s => length (ScriptPreview.split s)) (y :: ys))).
    rewrite <- IH, !length_split. simpl. lia.
Qed.

(** X4. The word count shown for a script is the sum, over the sections
    that are present, of the number of pieces that the spaces cut each
    section into; for a script with none of the four sections it is 1,
    not 0.  In every case it is one more than the number of spaces of the
    full script that is shown. *)
Theorem word_count_by_sections (adScript : ScriptPreview.AdScript) :
  ScriptPreview.word_count adScript
  = match ScriptPreview.sections adScript with
    | [] => 1
    | present =>
        list_sum (map (fun s => length (ScriptPreview.split s)) present)
    end
  /\ ScriptPreview.word_count adScript
     = S (ScriptPreview.spaces (ScriptPreview.full_script adScript)).
Proof.
  unfold ScriptPreview.word_count, ScriptPreview.full_script. split.
  - destruct (ScriptPreview.sections adScript) as [|x xs];
      [reflexivity | apply word_count_of_join].
  - apply length_split.
Qed.

(** *** Polling the status *)

Lemma strict_eqb_eq (a b : option Scalar) :
  strict_eqb a b = true -> a = b.
Proof.
  destruct a as [[x|x]|], b as [[y|y]|]; simpl;
    try discriminate; try reflexivity; intros H.
  - apply String.eqb_eq in H. now subst.
  - apply Nat.eqb_eq in H. now subst.
Qed.

(** X5. [pollStatus] resolves only with a status record that says
    completed, received for a non-empty session id in a round that began
    within the time limit; whatever else the backend answers, it keeps
    polling or rejects. *)
Theorem pollStatus_resolves_only_completed
        (sessionId : option string) (startTime timeoutMs : Z)
        (rounds : list (Z * FetchOutcome))
        (status : JsonObject) (sent : list Request) :
  Polling.pollStatus sessionId startTime timeoutMs rounds
  = (Polling.Resolved status, sent) ->
  Api.status status = Some "completed"
  /\ truthy sessionId = true
  /\ exists now o,
       In (now, o) rounds
       /\ (now - startTime <= timeoutMs)%Z
       /\ apiRequest o = Return (Json (JObject status)).
Proof.
  revert sent. induction rounds as [|[now o] rest IH]; intros sent;
    [discriminate|].
  cbn [Polling.pollStatus]. unfold Polling.poll, Polling.getStatus_result.
  destruct (now - startTime >? timeoutMs)%Z eqn:Hlate; [discriminate|].
  assert (Hin_time : (now - startTime <= timeoutMs)%Z)
    by (rewrite Z.gtb_ltb, Z.ltb_ge in Hlate; exact Hlate).
  assert (Hrest :
    (let (p, later) := Polling.pollStatus sessionId startTime timeoutMs rest in
     (p, (Polling.getStatus_request sessionId ++ later)%list))
    = (Polling.Resolved status, sent) ->
    Api.status status = Some "completed"
    /\ truthy sessionId = true
    /\ exists now' o',
         In (now', o') ((now, o) :: rest)
         /\ (now' - startTime <= timeoutMs)%Z
         /\ apiRequest o' = Return (Json (JObject status))).
  { destruct (Polling.pollStatus sessionId startTime timeoutMs rest)
      as [p later] eqn:E.
    intros [= -> _].
    destruct (IH later eq_refl) as (H1 & H2 & now' & o' & H3 & H4 & H5).
    split; [exact H1|]. split; [exact H2|].
    exists now', o'. split; [now right | now split]. }
  destruct (truthy sessionId) eqn:Hsid; [|discriminate].
  destruct (apiRequest o) as [[[|st]|r]|e] eqn:Hreq; try discriminate;
    try exact Hrest.
  destruct (strict_eqb (Api.status st) (Some "completed")) eqn:Hdone.
  - intros [= -> _]. split; [now apply strict_eqb_eq|]. split; [reflexivity|].
    exists now, o. split; [now left | now split].
  - destruct (strict_eqb (Api.status st) (Some "error"));
      [discriminate | exact Hrest].
Qed.

Lemma pollStatus_resolves_only_completed_witness :
  Polling.pollStatus (Some "abc") 0 60000
    [(0%Z, json_response sample_body)]
  = (Polling.Resolved sample_body,
     [{| endpoint := STATUS "abc"; method := "GET"; body := None |}])
  /\ Api.status sample_body = Some "completed".
Proof.
  split; [reflexivity|].
  exact (proj1 (pollStatus_resolves_only_completed
                  (Some "abc") 0 60000 [(0%Z, json_response sample_body)]
                  sample_body _ eq_refl)).
Defined.

(** X6. Once the time limit has passed, the next round of [pollStatus]
    sends no request and rejects with the timeout message, whatever the
    backend would have answered. *)
Theorem pollStatus_deadline
        (sessionId : option string) (startTime timeoutMs : Z)
        (before after : list (Z * FetchOutcome))
        (now : Z) (o : FetchOutcome) (sent : list Request) :
  Polling.pollStatus sessionId startTime timeoutMs before
  = (Polling.Pending, sent) ->
  (now - startTime > timeoutMs)%Z ->
  Polling.pollStatus sessionId startTime timeoutMs
    (before ++ (now, o) :: after)
  = (Polling.Rejected (Error "Status polling timeout"), sent).
Proof.
  intros Hpending Hlate. revert sent Hpending.
  induction before as [|[now0 o0] rest IH]; intros sent Hpending.
  - injection Hpending as <-. cbn [app Polling.pollStatus].
    unfold Polling.poll.
    destruct (now - startTime >? timeoutMs)%Z eqn:E; [reflexivity|].
    rewrite Z.gtb_ltb, Z.ltb_ge in E. lia.
  - cbn [app Polling.pollStatus] in *.
    destruct (Polling.poll sessionId startTime timeoutMs now0 o0)
      as [[st|e|] sent0]; try discriminate.
    destruct (Polling.pollStatus sessionId startTime timeoutMs rest)
      as [p later] eqn:E.
    injection Hpending as -> <-.
    now rewrite (IH later eq_refl).
Qed.

Lemma pollStatus_deadline_witness :
  Polling.pollStatus (Some "abc") 0 60000 [] = (Polling.Pending, [])
  /\ (60001 - 0 > 60000)%Z
  /\ Polling.pollStatus (Some "abc") 0 60000
       [(60001%Z, json_response sample_body)]
     = (Polling.Rejected (Error "Status polling timeout"), []).
Proof.
  split; [reflexivity|]. split; [reflexivity|].
  exact (pollStatus_deadline (Some "abc") 0 60000 [] []
           60001 (json_response sample_body) [] eq_refl eq_refl).
Defined.

Lemma poll_sends_at_most_one
      (sessionId : option string) (startTime timeoutMs now : Z)
      (o : FetchOutcome) :
  length (snd (Polling.poll sessionId startTime timeoutMs now o)) <= 1.
Proof.
  unfold Polling.poll, Polling.getStatus_request.
  destruct (now - startTime >? timeoutMs)%Z; simpl; [lia|].
  destruct sessionId as [[|c s]|]; simpl; lia.
Qed.

Lemma pollStatus_requests_spaced
      (sessionId : option string) (startTime timeoutMs intervalMs : Z)
      (rounds : list (Z * FetchOutcome)) :
  (0 < intervalMs)%Z ->
  forall t : Z,
    (startTime <= t)%Z ->
    Polling.spaced t intervalMs rounds ->
    let n := length (snd (Polling.pollStatus sessionId startTime timeoutMs
                            rounds)) in
    n = 0 \/ ((Z.of_nat n - 1) * intervalMs + (t - startTime) <= timeoutMs)%Z.
Proof.
  intros Hint. induction rounds as [|[now o] rest IH]; intros t Ht Hsp;
    cbv zeta; [now left|].
  destruct Hsp as [Hnow Hsp].
  cbn [Polling.pollStatus].
  pose proof (poll_sends_at_most_one sessionId startTime timeoutMs now o)
    as Hone.
  assert (Hsent : snd (Polling.poll sessionId startTime timeoutMs now o) <> []
                  -> (now - startTime <= timeoutMs)%Z).
  { unfold Polling.poll.
    destruct (now - startTime >? timeoutMs)%Z eqn:E; simpl.
    - intros H. now elim H.
    - intros _. rewrite Z.gtb_ltb, Z.ltb_ge in E. exact E. }
  destruct (Polling.poll sessionId startTime timeoutMs now o)
    as [[st|e|] sent] eqn:Hpoll; cbn [snd] in *.
  - destruct sent as [|r [|r' sent]]; cbn [length] in *;
      [now left | right | lia].
    specialize (Hsent ltac:(discriminate)). lia.
  - destruct sent as [|r [|r' sent]]; cbn [length] in *;
      [now left | right | lia].
    specialize (Hsent ltac:(discriminate)). lia.
  - specialize (IH (now + intervalMs)%Z ltac:(lia) Hsp). cbv zeta in IH.
    destruct (Polling.pollStatus sessionId startTime timeoutMs rest)
      as [p later]. cbn [snd] in *.
    rewrite length_app.
    destruct sent as [|r [|r' sent]]; cbn [length Nat.add] in *; [| |lia].
    + destruct IH as [IH|IH]; [now left | right]. lia.
    + right. specialize (Hsent ltac:(discriminate)).
      destruct IH as [IH|IH]; [rewrite IH; lia|].
      rewrite Nat2Z.inj_succ. lia.
Qed.

(** X7. When no timer fires early (the first round is not before the
    start, each next one at least the interval after the round before
    it), [pollStatus] sends at most one status request per interval of
    the time limit, plus one: with the defaults (60 s, 2 s) never more
    than 31. *)
Theorem pollStatus_request_bound
        (sessionId : option string) (startTime timeoutMs intervalMs : Z)
        (rounds : list (Z * FetchOutcome)) :
  (0 < intervalMs)%Z ->
  (0 <= timeoutMs)%Z ->
  Polling.spaced startTime intervalMs rounds ->
  (Z.of_nat (length (snd (Polling.pollStatus sessionId startTime timeoutMs
                            rounds)))
   <= timeoutMs / intervalMs + 1)%Z.
Proof.
  intros Hint Htime Hsp.
  pose proof (Z.div_pos timeoutMs intervalMs Htime Hint) as Hq.
  destruct (pollStatus_requests_spaced sessionId startTime timeoutMs
              intervalMs rounds Hint startTime (Z.le_refl _) Hsp) as [H|H];
    cbv zeta in H.
  - rewrite H. simpl. lia.
  - assert (Z.of_nat (length (snd (Polling.pollStatus sessionId startTime
                                     timeoutMs rounds))) - 1
            <= timeoutMs / intervalMs)%Z; [|lia].
    apply Z.div_le_lower_bound; [exact Hint | lia].
Qed.

Lemma pollStatus_request_bound_witness :
  (0 < 2000)%Z /\ (0 <= 60000)%Z
  /\ Polling.spaced 0 2000 [(0%Z, Rejects (Error "x")); (2000%Z, Rejects (Error "x"))]
  /\ (Z.of_nat (length (snd (Polling.pollStatus (Some "abc") 0 60000
        [(0%Z, Rejects (Error "x")); (2000%Z, Rejects (Error "x"))])))
      <= 60000 / 2000 + 1)%Z.
Proof.
  assert (H1 : (0 < 2000)%Z) by lia.
  assert (H2 : (0 <= 60000)%Z) by lia.
  assert (H3 : Polling.spaced 0 2000
                 [(0%Z, Rejects (Error "x")); (2000%Z, Rejects (Error "x"))])
    by (simpl; lia).
  split; [exact H1|]. split; [exact H2|]. split; [exact H3|].
  exact (pollStatus_request_bound (Some "abc") 0 60000 2000 _ H1 H2 H3).
Defined.

(** *** The headers of a request *)

Lemma get_delete (key : string) (o : Config.Obj) :
  Config.get key (Config.delete key o) = None.
Proof.
  induction o as [|[k v] o IH]; [reflexivity|].
  unfold Config.delete in *. simpl.
  destruct (String.eqb k key) eqn:E; simpl; [exact IH|].
  now rewrite E.
Qed.

(** X8. The headers that [apiRequest] hands to [fetch]: with a
    [FormData] body there is never a [Content-Type] among them, whatever
    the caller passed; without headers of the caller and with any other
    body (or none) they are exactly the JSON content type; and headers of
    the caller take the place of the default ones altogether, so that a
    caller who passes headers without a content type sends none. *)
Theorem apiRequest_headers (options : Config.Options) :
  (Config.instanceof_FormData (Config.opt_body options) = true ->
   Config.get "Content-Type" (Config.defaultOptions_headers options) = None)
  /\ (Config.instanceof_FormData (Config.opt_body options) = false ->
      Config.opt_headers options = None ->
      Config.defaultOptions_headers options
      = [("Content-Type", "application/json")])
  /\ (forall h : Config.Obj,
        Config.instanceof_FormData (Config.opt_body options) = false ->
        Config.opt_headers options = Some h ->
        Config.defaultOptions_headers options = h).
Proof.
  unfold Config.defaultOptions_headers. repeat split.
  - intros ->. apply get_delete.
  - intros -> ->. reflexivity.
  - intros h -> ->. reflexivity.
Qed.

(** *** The download link *)

Lemma string_length_append (a b : string) :
  String.length (a ++ b) = String.length a + String.length b.
Proof. induction a as [|c a IH]; simpl; [reflexivity | now rewrite IH]. Qed.

Lemma append_is_suffix (a b : string) : a ++ b = b <-> a = "".
Proof.
  split; [|now intros ->].
  intros H. apply (f_equal String.length) in H.
  rewrite string_length_append in H.
  destruct a; [reflexivity | simpl in H; lia].
Qed.

Lemma append_assoc (a b c : string) : (a ++ b) ++ c = a ++ (b ++ c).
Proof. induction a as [|x a IH]; simpl; [reflexivity | now rewrite IH]. Qed.

(** X9. A download with a session id follows one link, to
    [/api/download/<id>] with the file name [ad_video_<id>.mp4], sends no
    request of its own and leaves the workflow state as it was.  The
    link is relative: it is the download endpoint of the API
    configuration only where the base URL is empty, which it is in
    development and never in a production build. *)
Theorem download_link
        (w : World) (c : ascii) (rest : string)
        (isDevelopment : bool) (VITE_API_URL : option string) :
  sessionId (generationData w) = Some (String c rest) ->
  let sid := String c rest in
  let w' := dispatch w Download in
  generationData w' = generationData w
  /\ currentStep w' = currentStep w
  /\ requests (effects w') = requests (effects w)
  /\ navigations (effects w')
     = (navigations (effects w)
        ++ [(("/api/download/" ++ sid)%string,
             ("ad_video_" ++ sid ++ ".mp4")%string)])%list
  /\ ("/api/download/" ++ sid
      = endpoint_url (Config.API_BASE_URL isDevelopment VITE_API_URL)
                     (DOWNLOAD sid)
      <-> isDevelopment = true).
Proof.
  intros Hsid. cbv zeta. unfold dispatch.
  assert (Hh : handle w Download =
               run (Do (clickLink ("/api/download/" ++ String c rest)
                                  ("ad_video_" ++ String c rest ++ ".mp4"))
                   (Do (showToast "Download started!" "success") Done)) w).
  { unfold handle, handleDownload. now rewrite Hsid. }
  rewrite Hh. rewrite useEffect_refresh_same_deps by reflexivity.
  cbn [run perform generationData currentStep effects].
  split; [reflexivity|]. split; [reflexivity|]. split; [|split].
  - rewrite !requests_app. simpl. now rewrite !app_nil_r.
  - rewrite !navigations_app. simpl. now rewrite !app_nil_r.
  - unfold endpoint_url.
    rewrite <- (append_assoc _ "/api/download/" (String c rest)).
    change ("/api/download/" ++ String c rest)
      with (("" ++ "/api/download/") ++ String c rest) at 1.
    rewrite !append_assoc.
    split.
    + intros H. symmetry in H. apply append_is_suffix in H.
      unfold Config.API_BASE_URL in H.
      destruct isDevelopment; [reflexivity|].
      destruct VITE_API_URL as [[|x y]|]; discriminate.
    + intros ->. reflexivity.
Qed.

Lemma download_link_witness :
  let w := dispatch_all mounted
             [ SubmitUrl "https://example.com/item/123";
               Settles 0 (json_response sample_body) ] in
  sessionId (generationData w) = Some "abc"
  /\ navigations (effects (dispatch w Download))
     = [("/api/download/abc", "ad_video_abc.mp4")].
Proof.
  cbv zeta. split; [reflexivity|].
  exact (proj1 (proj2 (proj2 (proj2
    (download_link
       (dispatch_all mounted
          [ SubmitUrl "https://example.com/item/123";
            Settles 0 (json_response sample_body) ])
       "a" "bc" true None eq_refl))))).
Defined.

(** *** What every reachable state satisfies *)

Ltac tame_patch_now :=
  unfold Reach.tame_patch, Reach.checkpoints, Reach.null_or_truthy;
  cbn [set_progress set_sessionId whole progress sessionId failed idle_data In];
  try tauto.

Lemma tame_scrape_resume (c : Completion ApiResult) :
  Reach.tame (scrape_resume c).
Proof.
  unfold scrape_resume, scrape_catch.
  destruct c as [res|e]; [destruct (fields res) as [r|];
    [destruct (truthyb (success r) && truthy (session_id r)) eqn:E|]|];
    cbn [Reach.tame]; repeat split; tame_patch_now.
  apply andb_prop in E as [_ E]. now right.
Qed.

Lemma tame_video_resume (c : Completion ApiResult) :
  Reach.tame (video_resume c).
Proof.
  unfold video_resume, video_catch.
  destruct c as [res|e]; [destruct (fields res) as [r|];
    [destruct (truthyb _)|]|]; cbn [Reach.tame]; repeat split; tame_patch_now.
Qed.

Lemma tame_create_video_step (sid : option string) (s : Settings) :
  Reach.tame (create_video_step sid s).
Proof.
  unfold create_video_step, videoAPI.createVideo. cbn [Reach.tame].
  split; [tame_patch_now|].
  destruct sid as [[|c sid]|]; cbn [Reach.tame];
    try (intros o); apply tame_video_resume.
Qed.

Lemma tame_script_resume (sid : option string) (s : Settings)
      (c : Completion ApiResult) :
  Reach.tame (script_resume sid s c).
Proof.
  unfold script_resume, script_catch.
  destruct c as [res|e]; [destruct (fields res) as [r|];
    [destruct (negb _)|]|]; cbn [Reach.tame]; repeat split;
    try tame_patch_now.
  apply tame_create_video_step.
Qed.

Lemma tame_refresh_resume (c : Completion ApiResult) :
  Reach.tame (refresh_resume c).
Proof.
  unfold refresh_resume.
  destruct c as [res|e]; [destruct (fields res) as [r|]|];
    cbn [Reach.tame]; repeat split; tame_patch_now.
Qed.

Lemma tame_refreshSessionData (g : GenerationData) :
  Reach.tame (refreshSessionData g).
Proof.
  unfold refreshSessionData, videoAPI.getSessionData.
  destruct (sessionId g) as [[|c sid]|]; cbn [Reach.tame];
    try (intros o); apply tame_refresh_resume.
Qed.

Lemma tame_handlers (w : World) (e : Event) :
  match e with
  | SubmitUrl u => Reach.tame (handleUrlSubmit u)
  | ChangeSettings s => Reach.tame (Do (setSettings s) Done)
  | ConfirmSettings s => Reach.tame (handleSettingsConfirm (generationData w) s)
  | Back => Reach.tame (Do (setCurrentStep input) Done)
  | Reset => Reach.tame handleReset
  | Download => Reach.tame (handleDownload (generationData w))
  | Settles _ _ | Fires _ => True
  end.
Proof.
  destruct e as [u|s|s| | | |i o|i]; try exact I.
  - unfold handleUrlSubmit, videoAPI.scrapeProduct. cbn [Reach.tame].
    repeat split; try tame_patch_now. intros o. apply tame_scrape_resume.
  - cbn [Reach.tame]. tauto.
  - unfold handleSettingsConfirm, videoAPI.generateScript.
    destruct (sessionId (generationData w)) as [[|c sid]|];
      cbn [negb truthy Reach.tame]; repeat split; try tame_patch_now.
    intros o. apply tame_script_resume.
  - cbn [Reach.tame]. tauto.
  - unfold handleReset. cbn [Reach.tame]. repeat split; tame_patch_now.
  - unfold handleDownload.
    destruct (sessionId (generationData w)) as [[|c sid]|];
      cbn [Reach.tame]; tauto.
Qed.

Lemma apply_patch_tame (g : GenerationData) (p : Patch) :
  Reach.tame_patch p -> Reach.tame_data g ->
  Reach.tame_data (apply_patch g p).
Proof.
  unfold Reach.tame_patch, Reach.tame_data, apply_patch, upd.
  cbn [progress sessionId].
  intros [Hp Hs] [Hg Hi].
  destruct (set_progress p), (set_sessionId p); tauto.
Qed.

Lemma run_tame (p : Prog Action) :
  forall w : World,
    Reach.tame p -> Reach.tame_world w -> Reach.tame_world (run p w).
Proof.
  induction p as [|a k IH|req k IH|ms callback _ k IH];
    intros w Hp (Hdata & Hcalls & Htimers); cbn [run Reach.tame] in *.
  - exact (conj Hdata (conj Hcalls Htimers)).
  - destruct Hp as [Ha Hk]. apply IH; [exact Hk|].
    unfold Reach.tame_world, perform.
    cbn [generationData inflight timers].
    split; [|split; assumption].
    destruct a; try exact Hdata. now apply apply_patch_tame.
  - unfold Reach.tame_world, suspend. cbn [generationData inflight timers].
    split; [exact Hdata|]. split; [|exact Htimers].
    apply Forall_app. split; [exact Hcalls|]. now constructor.
  - destruct Hp as [Hcb Hk]. apply IH; [exact Hk|].
    unfold Reach.tame_world, schedule. cbn [generationData inflight timers].
    split; [exact Hdata|]. split; [exact Hcalls|].
    apply Forall_app. split; [exact Htimers|]. now constructor.
Qed.

Lemma dispatch_tame (w : World) (e : Event) :
  Reach.tame_world w -> Reach.tame_world (dispatch w e).
Proof.
  intros Hw.
  assert (Hh : Reach.tame_world (handle w e)).
  { pose proof (tame_handlers w e) as He.
    destruct e as [u|s|s| | | |i o|i]; cbn [handle];
      try (now apply run_tame).
    - destruct (nth_error (inflight w) i) as [[req k]|] eqn:Hn;
        [|exact Hw].
      destruct Hw as (Hdata & Hcalls & Htimers).
      pose proof (Forall_nth_error _ _ _ _ Hcalls Hn o) as Hk.
      apply run_tame; [exact Hk|].
      unfold Reach.tame_world, settle. cbn [generationData inflight timers].
      split; [exact Hdata|]. split; [|exact Htimers].
      now apply Forall_remove_nth.
    - destruct (nth_error (timers w) i) as [[ms callback]|] eqn:Hn;
        [|exact Hw].
      destruct Hw as (Hdata & Hcalls & Htimers).
      pose proof (Forall_nth_error _ _ _ _ Htimers Hn) as Hk.
      apply run_tame; [exact Hk|].
      unfold Reach.tame_world, expire. cbn [generationData inflight timers].
      split; [exact Hdata|]. split; [exact Hcalls|].
      now apply Forall_remove_nth. }
  unfold dispatch, useEffect_refresh.
  destruct (_ && _); [exact Hh|].
  destruct (_ && _); [|exact Hh].
  apply run_tame; [apply tame_refreshSessionData | exact Hh].
Qed.

Lemma dispatch_all_tame (es : list Event) :
  forall w : World,
    Reach.tame_world w -> Reach.tame_world (dispatch_all w es).
Proof.
  induction es as [|e es IH]; intros w Hw; [exact Hw|].
  rewrite dispatch_all_cons. apply IH. now apply dispatch_tame.
Qed.

Lemma tame_world_mounted : Reach.tame_world mounted.
Proof.
  unfold Reach.tame_world, Reach.tame_data, Reach.checkpoints,
    Reach.null_or_truthy.
  simpl. repeat split; try constructor; tauto.
Qed.

(** X10. Whatever the user does and however the calls and timers
    settle, in any order and across resets and abandoned attempts,
    [progress] is always one of 0, 10, 25, 35, 50, 60 and 100, so never
    above 100. *)
Theorem progress_is_a_checkpoint (es : list Event) :
  let w := dispatch_all mounted es in
  In (progress (generationData w)) [0; 10; 25; 35; 50; 60; 100]
  /\ progress (generationData w) <= 100.
Proof.
  cbv zeta.
  destruct (dispatch_all_tame es mounted tame_world_mounted)
    as ((Hp & _) & _).
  split; [exact Hp|].
  unfold Reach.checkpoints in Hp. simpl in Hp.
  repeat (destruct Hp as [<-|Hp]; [lia|]). now elim Hp.
Qed.

(** X11. In every state the component can reach, [sessionId] is null or
    a non-empty string: the only value ever stored in it is a session id
    that passed the check of [handleUrlSubmit]. *)
Theorem sessionId_null_or_nonempty (es : list Event) :
  let w := dispatch_all mounted es in
  sessionId (generationData w) = None
  \/ truthy (sessionId (generationData w)) = true.
Proof.
  cbv zeta.
  destruct (dispatch_all_tame es mounted tame_world_mounted)
    as ((_ & Hs) & _).
  exact Hs.
Qed.

(** *** The requests and the statuses of a run *)

Ltac read_effects :=
  unfold dispatch_all; cbn [fold_left effects];
  repeat rewrite requests_app; repeat rewrite status_assigned_app;
  cbn; repeat rewrite app_nil_r; repeat rewrite <- app_assoc.

Lemma scrape_completes_effects (w : World) (u : string) (o1 : FetchOutcome)
      (r1 : JsonObject) :
  scrape_success o1 = Some r1 ->
  let w2 := dispatch_all w [SubmitUrl u; Settles (length (inflight w)) o1;
                            Fires (length (timers w))] in
  requests (effects w2)
  = (requests (effects w)
     ++ [{| endpoint := SCRAPE; method := "POST";
            body := Some [("url", u)] |}])%list
  /\ status_assigned (effects w2)
     = (status_assigned (effects w)
        ++ [Some "scraping"; Some "scraped"])%list.
Proof.
  intros H1. destruct (scrape_resume_success o1 r1 H1) as [_ Hres].
  cbv zeta.
  rewrite dispatch_all_cons, dispatch_SubmitUrl.
  rewrite dispatch_all_cons. settles. rewrite Hres. tidy. stays.
  rewrite dispatch_all_cons. fires. stays.
  read_effects. split; reflexivity.
Qed.

Lemma edits_send_nothing (edits : list Settings) :
  forall w : World,
    let w' := dispatch_all w (map ChangeSettings edits) in
    requests (effects w') = requests (effects w)
    /\ status_assigned (effects w') = status_assigned (effects w).
Proof.
  induction edits as [|s edits IH]; intros w; cbv zeta.
  - split; reflexivity.
  - cbn [map]. rewrite dispatch_all_cons, dispatch_ChangeSettings.
    destruct (IH {| currentStep := currentStep w; url := url w; settings := s;
                    generationData := generationData w;
                    inflight := inflight w; timers := timers w;
                    effects := effects w ++ [Performed (setSettings s)] |})
      as (H1 & H2).
    cbv zeta in H1, H2. rewrite H1, H2. cbn [effects].
    rewrite requests_app, status_assigned_app. cbn.
    now rewrite !app_nil_r.
Qed.

Lemma video_in_flight_effects (w : World) (s : Settings) (o2 : FetchOutcome)
      (r2 : JsonObject) (c : ascii) (sid : string) :
  sessionId (generationData w) = Some (String c sid) ->
  stage_success o2 = Some r2 ->
  let w3 := dispatch_all w [ConfirmSettings s;
                            Settles (length (inflight w)) o2;
                            Fires (length (timers w))] in
  requests (effects w3)
  = (requests (effects w)
     ++ [ {| endpoint := GENERATE_SCRIPT; method := "POST";
             body := Some [("session_id", String c sid);
                           ("tone", match voiceTone s with
                                    | Some t => t
                                    | None => "exciting"
                                    end)] |};
          {| endpoint := CREATE_VIDEO; method := "POST";
             body := Some (videoAPI.createVideo_form (String c sid) s) |} ])%list
  /\ status_assigned (effects w3)
     = (status_assigned (effects w)
        ++ [Some "generating_script"; Some "script_generated";
            Some "creating_video"])%list.
Proof.
  intros Hsid H2. cbv zeta.
  rewrite dispatch_all_cons.
  rewrite dispatch_ConfirmSettings by (now rewrite Hsid).
  cbv zeta. rewrite Hsid.
  rewrite dispatch_all_cons. settles.
  rewrite (script_resume_success _ _ o2 r2 H2). tidy. stays.
  rewrite dispatch_all_cons. fires.
  unfold create_video_step, videoAPI.createVideo. tidy. stays.
  read_effects. split; reflexivity.
Qed.

Lemma video_completes_effects (w3 : World) l req (c : ascii) (sid : string)
      (o3 : FetchOutcome) (r3 : JsonObject) :
  inflight w3 = (l ++ [(req, fun o => video_resume (apiRequest o))])%list ->
  currentStep w3 = generating ->
  sessionId (generationData w3) = Some (String c sid) ->
  stage_success o3 = Some r3 ->
  let w4 := dispatch w3 (Settles (length l) o3) in
  requests (effects w4)
  = (requests (effects w3)
     ++ [{| endpoint := SESSION_DATA (String c sid); method := "GET";
            body := None |}])%list
  /\ status_assigned (effects w4)
     = (status_assigned (effects w3) ++ [Some "completed"])%list
  /\ timers w4 = timers w3.
Proof.
  intros Hin Hstep Hsid H3. cbv zeta.
  rewrite (dispatch_Settles_last w3 l req _ o3 Hin). cbv beta.
  rewrite (video_resume_success o3 r3 H3).
  unfold useEffect_refresh. tidy. rewrite Hin, remove_nth_last, Hstep.
  cbn [Step_eqb andb]. unfold refreshSessionData.
  rewrite !sessionId_apply_patch. cbn [set_sessionId upd].
  rewrite Hsid. cbn [truthy].
  unfold videoAPI.getSessionData. tidy.
  split; [|split]; [| |reflexivity]; read_effects; reflexivity.
Qed.

Lemma refresh_resume_sends_nothing (c : Completion ApiResult) (w : World) :
  requests (effects (run (refresh_resume c) w)) = requests (effects w)
  /\ inflight (run (refresh_resume c) w) = inflight w
  /\ timers (run (refresh_resume c) w) = timers w.
Proof.
  unfold refresh_resume.
  destruct c as [res|e]; [destruct (fields res) as [r|]|];
    simpl; repeat split; try reflexivity;
    rewrite requests_app; simpl; apply app_nil_r.
Qed.

(** The world that the run reaches, with what the earlier lemmas say of
    it and the requests and statuses of its effects. *)
Lemma successful_run (w : World) (u : string) (edits : list Settings)
      (s : Settings) (o1 o2 o3 : FetchOutcome) (r1 r2 r3 : JsonObject)
      (c : ascii) (sid : string) :
  scrape_success o1 = Some r1 ->
  stage_success o2 = Some r2 ->
  stage_success o3 = Some r3 ->
  session_id r1 = Some (String c sid) ->
  exists w4,
    dispatch_all w
      ([ SubmitUrl u; Settles (length (inflight w)) o1;
         Fires (length (timers w)) ]
       ++ map ChangeSettings edits
       ++ [ ConfirmSettings s; Settles (length (inflight w)) o2;
            Fires (length (timers w));
            Settles (length (inflight w)) o3 ]) = w4
    /\ inflight w4 =
       (inflight w
        ++ [({| endpoint := SESSION_DATA (String c sid); method := "GET";
                body := None |},
             fun o => refresh_resume (apiRequest o))])%list
    /\ timers w4 = timers w
    /\ requests (effects w4)
       = (requests (effects w) ++ Reach.run_requests u (String c sid) s)%list
    /\ status_assigned (effects w4)
       = (status_assigned (effects w)
          ++ map (fun key : string => Some (Str key))
               GenerationProgress.steps)%list.
Proof.
  intros H1 H2 H3 Hr1.
  destruct (scrape_completes w u o1 r1 H1)
    as (w1 & E1 & Hstep1 & Hin1 & Htm1 & Hdata1 & _).
  destruct (scrape_completes_effects w u o1 r1 H1) as (Hreq1 & Hst1).
  cbv zeta in Hreq1, Hst1. rewrite E1 in Hreq1, Hst1.
  destruct (edits_are_quiet edits w1) as (_ & Hdata2 & Hin2 & Htm2 & _).
  destruct (edits_send_nothing edits w1) as (Hreq2 & Hst2).
  cbv zeta in Hdata2, Hin2, Htm2, Hreq2, Hst2.
  set (w2 := dispatch_all w1 (map ChangeSettings edits)) in *.
  assert (Hsid2 : sessionId (generationData w2) = Some (String c sid))
    by (now rewrite Hdata2, Hdata1).
  destruct (video_in_flight w2 s o2 r2 c sid Hsid2 H2)
    as (w3 & E3 & Hstep3 & Htm3 & Hin3 & Hdata3 & _).
  destruct (video_in_flight_effects w2 s o2 r2 c sid Hsid2 H2)
    as (Hreq3 & Hst3).
  cbv zeta in Hreq3, Hst3. rewrite E3 in Hreq3, Hst3.
  assert (Hsid3 : sessionId (generationData w3) = Some (String c sid))
    by (now rewrite Hdata3).
  destruct (video_completes w3 (inflight w2) _ c sid o3 r3
              Hin3 Hstep3 Hsid3 H3)
    as (w4 & E4 & _ & _ & _ & _ & _ & Hin4 & _).
  destruct (video_completes_effects w3 (inflight w2) _ c sid o3 r3
              Hin3 Hstep3 Hsid3 H3) as (Hreq4 & Hst4 & Htm4).
  cbv zeta in Hreq4, Hst4, Htm4. rewrite E4 in Hreq4, Hst4, Htm4.
  assert (Hlen_in : length (inflight w) = length (inflight w2))
    by (now rewrite Hin2, Hin1).
  assert (Hlen_tm : length (timers w) = length (timers w2))
    by (now rewrite Htm2, Htm1).
  exists w4. split.
  - change [ ConfirmSettings s; Settles (length (inflight w)) o2;
             Fires (length (timers w));
             Settles (length (inflight w)) o3 ]
      with ([ ConfirmSettings s; Settles (length (inflight w)) o2;
              Fires (length (timers w)) ]
            ++ [ Settles (length (inflight w)) o3 ])%list.
    rewrite !dispatch_all_app, E1. fold w2.
    rewrite Hlen_in, Hlen_tm, E3. exact E4.
  - split; [now rewrite Hin4, Hin2, Hin1|].
    split; [now rewrite Htm4, Htm3, Htm2, Htm1|].
    split.
    + rewrite Hreq4, Hreq3, Hreq2, Hreq1. unfold Reach.run_requests.
      now rewrite <- !app_assoc.
    + rewrite Hst4, Hst3, Hst2, Hst1. unfold GenerationProgress.steps.
      now rewrite <- !app_assoc.
Qed.

(** X12. A run in which no stage fails sends exactly four requests, in
    this order: the scrape of the submitted URL, the script generation
    and the video creation for the session id of the scrape response (the
    latter two with the tone and the settings of the confirmation), and
    one read of the session record when the results step is entered.  The
    answer to that read, whatever it is, sends nothing more, and the run
    leaves no call in flight and no timer behind. *)
Theorem successful_run_requests
        (w : World) (u : string) (edits : list Settings) (s : Settings)
        (o1 o2 o3 o4 : FetchOutcome) (r1 r2 r3 : JsonObject)
        (c : ascii) (sid : string) :
  scrape_success o1 = Some r1 ->
  stage_success o2 = Some r2 ->
  stage_success o3 = Some r3 ->
  session_id r1 = Some (String c sid) ->
  let n := length (inflight w) in
  let m := length (timers w) in
  let w' := dispatch_all w
              (([ SubmitUrl u; Settles n o1; Fires m ]
                ++ map ChangeSettings edits
                ++ [ ConfirmSettings s; Settles n o2; Fires m;
                     Settles n o3 ])
               ++ [ Settles n o4 ]) in
  requests (effects w')
  = (requests (effects w) ++ Reach.run_requests u (String c sid) s)%list
  /\ inflight w' = inflight w
  /\ timers w' = timers w.
Proof.
  intros H1 H2 H3 Hr1. cbv zeta.
  destruct (successful_run w u edits s o1 o2 o3 r1 r2 r3 c sid H1 H2 H3 Hr1)
    as (w4 & E4 & Hin4 & Htm4 & Hreq4 & _).
  rewrite dispatch_all_app, E4.
  rewrite dispatch_all_cons.
  rewrite (dispatch_Settles_last w4 _ _ _ o4 Hin4). cbv beta.
  destruct (refresh_resume_quiet (apiRequest o4)
              (settle (length (inflight w)) w4)) as (Hs & Hi & _ & _).
  destruct (refresh_resume_sends_nothing (apiRequest o4)
              (settle (length (inflight w)) w4)) as (Hq & Hin & Htm).
  rewrite useEffect_refresh_same_deps by assumption.
  unfold dispatch_all. cbn [fold_left].
  rewrite Hq, Hin, Htm. cbn [settle effects inflight timers].
  rewrite Hin4, remove_nth_last. now repeat split.
Qed.

Lemma successful_run_requests_witness :
  scrape_success (json_response sample_body) = Some sample_body
  /\ stage_success (json_response sample_body) = Some sample_body
  /\ session_id sample_body = Some "abc"
  /\ requests (effects (dispatch_all mounted
       [ SubmitUrl "https://example.com/item/123";
         Settles 0 (json_response sample_body); Fires 0;
         ConfirmSettings Settings.initial;
         Settles 0 (json_response sample_body); Fires 0;
         Settles 0 (json_response sample_body);
         Settles 0 (json_response sample_body) ]))
     = Reach.run_requests "https://example.com/item/123" "abc"
                          Settings.initial.
Proof.
  split; [reflexivity|]. split; [reflexivity|]. split; [reflexivity|].
  exact (proj1
    (successful_run_requests mounted "https://example.com/item/123" []
       Settings.initial
       (json_response sample_body) (json_response sample_body)
       (json_response sample_body) (json_response sample_body)
       sample_body sample_body sample_body "a" "bc"
       eq_refl eq_refl eq_refl eq_refl)).
Defined.



(** *** The refresh of the results step *)

(** X14. When the read of the session record comes back as a JSON
    object, the product data, the script, the video path and the status
    are replaced by its fields, also by the ones it lacks, so that a
    record without a video path erases the one stored; the session id,
    the progress, the error, the current operation and the wizard's step
    stay.  A 2xx answer that is not JSON is handed over as the raw
    response: the three data fields are erased and the status becomes the
    HTTP status number.  When the read fails nothing changes at all.
    When it comes back as null the updater throws a TypeError that the
    handler's [catch] does not see: no update is made and the error is
    left to React.  In every case no further request is sent. *)
Theorem refresh_outcome
        (w : World) l req (o : FetchOutcome) :
  inflight w = (l ++ [(req, fun o => refresh_resume (apiRequest o))])%list ->
  let w' := dispatch w (Settles (length l) o) in
  (forall record : JsonObject,
     apiRequest o = Return (Json (JObject record)) ->
     generationData w' =
     {| sessionId := sessionId (generationData w);
        productData := product_data record;
        adScript := ad_script record;
        videoPath := video_path record;
        progress := progress (generationData w);
        status := Api.status record;
        error := error (generationData w);
        currentOperation := currentOperation (generationData w) |})
  /\ (forall r : Response,
       apiRequest o = Return (Raw r) ->
       generationData w' =
       {| sessionId := sessionId (generationData w);
          productData := None;
          adScript := None;
          videoPath := None;
          progress := progress (generationData w);
          status := Some (Num (http_status r));
          error := error (generationData w);
          currentOperation := currentOperation (generationData w) |})
  /\ (forall e, apiRequest o = Throw e ->
       generationData w' = generationData w /\ effects w' = effects w)
  /\ (apiRequest o = Return (Json JNull) ->
      generationData w' = generationData w
      /\ effects w'
         = (effects w
            ++ [Performed (updaterThrows (null_read "product_data"))])%list)
  /\ currentStep w' = currentStep w
  /\ requests (effects w') = requests (effects w)
  /\ inflight w' = l.
Proof.
  intros Hin. cbv zeta.
  rewrite (dispatch_Settles_last w l req _ o Hin). cbv beta.
  destruct (refresh_resume_quiet (apiRequest o) (settle (length l) w))
    as (Hs & Hi & _ & _).
  destruct (refresh_resume_sends_nothing (apiRequest o) (settle (length l) w))
    as (Hq & Hfl & _).
  rewrite useEffect_refresh_same_deps by assumption.
  split; [|split; [|split; [|split; [|split; [|split]]]]].
  - intros record ->. reflexivity.
  - intros r ->. reflexivity.
  - intros e ->. split; reflexivity.
  - intros ->. split; reflexivity.
  - exact Hs.
  - exact Hq.
  - rewrite Hfl. cbn [settle inflight]. now rewrite Hin, remove_nth_last.
Qed.

Lemma refresh_outcome_witness :
  let w := dispatch_all mounted
             [ SubmitUrl "https://example.com/item/123";
               Settles 0 (json_response sample_body); Fires 0;
               ConfirmSettings Settings.initial;
               Settles 0 (json_response sample_body); Fires 0;
               Settles 0 (json_response sample_body) ] in
  let page := {| http_status := 200; statusText := "OK";
                 content_type := Some "text/html";
                 text := "<html></html>";
                 parsed := SyntaxError {| Js.name := "SyntaxError";
                                          Js.message := "Unexpected token <" |} |} in
  inflight w
  = ([] ++ [({| endpoint := SESSION_DATA "abc"; method := "GET";
                body := None |},
             fun o => refresh_resume (apiRequest o))])%list
  /\ status (generationData (dispatch w (Settles 0 (Responds page))))
     = Some (Num 200).
Proof.
  cbv zeta.
  assert (Hin :
    inflight (dispatch_all mounted
                [ SubmitUrl "https://example.com/item/123";
                  Settles 0 (json_response sample_body); Fires 0;
                  ConfirmSettings Settings.initial;
                  Settles 0 (json_response sample_body); Fires 0;
                  Settles 0 (json_response sample_body) ])
    = ([] ++ [({| endpoint := SESSION_DATA "abc"; method := "GET";
                  body := None |},
               fun o => refresh_resume (apiRequest o))])%list)
    by reflexivity.
  split; [exact Hin|].
  pose (page := {| http_status := 200; statusText := "OK";
                   content_type := Some "text/html";
                   text := "<html></html>";
                   parsed := SyntaxError {| Js.name := "SyntaxError";
                                            Js.message := "Unexpected token <" |} |}).
  exact (f_equal status
           (proj1 (proj2 (refresh_outcome _ [] _ (Responds page) Hin))
                  page eq_refl)).
Defined.

(** *** The session id in camelCase *)

(** X15. A scrape response that reports success and carries its session
    id only as [sessionId] passes the validation of
    [videoAPI.scrapeProduct], which accepts either spelling, but not the
    check of [handleUrlSubmit], which reads [session_id] alone: the stage
    fails with the error of the body or, without one, with the message
    that no session id was returned. *)
Theorem camelCase_session_id_is_not_enough
        (w : World) (u : string) (b : JsonObject) :
  truthy (session_id b) = false ->
  truthy (Api.sessionId b) = true ->
  let o := json_response b in
  let w' := dispatch_all w [SubmitUrl u; Settles (length (inflight w)) o] in
  videoAPI.scrapeProduct_result (apiRequest o) = Return (Json (JObject b))
  /\ status (generationData w') = Some "error"
  /\ error (generationData w')
     = Some (or_else (Api.error b)
               "Failed to scrape product data - no session ID returned")
  /\ sessionId (generationData w') = None
  /\ currentStep w' = generating.
Proof.
  intros Hsnake Hcamel. cbv zeta.
  assert (Hres : videoAPI.scrapeProduct_result (apiRequest (json_response b))
                 = Return (Json (JObject b))).
  { unfold json_response, apiRequest, apiRequest_try, ok. cbn.
    now rewrite Hsnake, Hcamel. }
  split; [exact Hres|].
  rewrite dispatch_all_cons, dispatch_SubmitUrl.
  rewrite dispatch_all_cons. settles. rewrite Hres.
  unfold scrape_resume. cbn [fields]. rewrite Hsnake, andb_false_r.
  unfold scrape_catch. tidy. stays.
  unfold dispatch_all. cbn [fold_left]. repeat split.
Qed.

Lemma camelCase_session_id_is_not_enough_witness :
  let b := {| success := Some true; session_id := None;
              Api.sessionId := Some "abc"; product_data := Some "Widget";
              ad_script := None; video_path := None;
              Api.status := None; Api.error := None;
              detail := None; message := None |} in
  truthy (session_id b) = false
  /\ truthy (Api.sessionId b) = true
  /\ error (generationData
       (dispatch_all mounted [SubmitUrl "https://example.com/item/123";
                              Settles 0 (json_response b)]))
     = Some "Failed to scrape product data - no session ID returned".
Proof.
  cbv zeta. split; [reflexivity|]. split; [reflexivity|].
  exact (proj1 (proj2 (proj2
    (camelCase_session_id_is_not_enough mounted
       "https://example.com/item/123"
       {| success := Some true; session_id := None;
          Api.sessionId := Some "abc"; product_data := Some "Widget";
          ad_script := None; video_path := None;
          Api.status := None; Api.error := None;
          detail := None; message := None |}
       eq_refl eq_refl)))).
Defined.

(** *** What [apiRequest] makes of a response *)


(** *** What the settings form can produce *)

Lemma emitted_is_offered (s : Settings) (c : VideoSettings.Change) :
  FormEvents.emitted s c = true -> VideoSettings.offered c = true.
Proof.
  destruct c; simpl; intros H; try reflexivity;
    repeat (apply andb_prop in H as [H ?]); assumption.
Qed.

Lemma session_is_offered (changes : list VideoSettings.Change) :
  forall s : Settings,
    FormEvents.session s changes = true ->
    forallb VideoSettings.offered changes = true.
Proof.
  induction changes as [|c changes IH]; intros s H; [reflexivity|].
  simpl in *. apply andb_prop in H as [Hc H].
  rewrite (emitted_is_offered s c Hc). now apply (IH _ H).
Qed.

Lemma mem_cases (v : string) (options : list string) :
  VideoSettings.mem v options = true -> In v options.
Proof.
  unfold VideoSettings.mem. intros H.
  apply existsb_exists in H as (x & Hin & Hx).
  apply String.eqb_eq in Hx. now subst.
Qed.

Lemma plan_reaches (s : Settings) :
  VideoSettings.legal s = true ->
  FormEvents.session Settings.initial (FormEvents.plan s) = true
  /\ VideoSettings.fill_form Settings.initial (FormEvents.plan s) = s.
Proof.
  unfold VideoSettings.legal. intros Hs.
  destruct s as [[a|] [t|] [v|] [k|] [o|] [i|] [m|]]; try discriminate.
  cbn [aspectRatio template voiceTone enableKaraoke includeVoiceover
       includeMusic backgroundMusic] in Hs.
  apply andb_prop in Hs as [Hs Hm]. apply andb_prop in Hs as [Hs Hv].
  apply andb_prop in Hs as [Ha Ht].
  apply mem_cases in Ha, Ht, Hv, Hm.
  unfold VideoSettings.aspectRatio_options in Ha.
  unfold VideoSettings.template_options in Ht.
  unfold VideoSettings.voiceTone_options in Hv.
  unfold VideoSettings.backgroundMusic_options in Hm.
  cbn [In] in Ha, Ht, Hv, Hm.
  destruct Ha as [<-|[<-|[<-|[]]]];
    destruct Ht as [<-|[<-|[<-|[<-|[]]]]];
    destruct Hv as [<-|[<-|[<-|[<-|[<-|[]]]]]];
    destruct Hm as [<-|[<-|[<-|[<-|[]]]]];
    destruct k, o, i; split; vm_compute; reflexivity.
Qed.

(** X17. The settings objects that the form can hand to the
    confirmation are exactly the legal ones: whatever series of changes
    its inputs emit from the initial settings leaves every field at one
    of its options, and every combination of options can be reached,
    although the music style can only be changed while the music is
    switched on. *)
Theorem form_reaches_exactly_the_legal_settings (s : Settings) :
  VideoSettings.legal s = true
  <-> exists changes,
        FormEvents.session Settings.initial changes = true
        /\ VideoSettings.fill_form Settings.initial changes = s.
Proof.
  split.
  - intros Hs. exists (FormEvents.plan s). now apply plan_reaches.
  - intros (changes & Hsession & <-).
    apply fill_form_legal; [reflexivity|].
    now apply (session_is_offered changes Settings.initial).
Qed.

(** *** Requests always name their session *)

Lemma polite_scrape_resume (c : Completion ApiResult) :
  Reach.polite (scrape_resume c).
Proof.
  unfold scrape_resume, scrape_catch.
  destruct c as [res|e]; [destruct (fields res) as [r|];
    [destruct (_ && _)|]|]; cbn [Reach.polite]; tauto.
Qed.

Lemma polite_video_resume (c : Completion ApiResult) :
  Reach.polite (video_resume c).
Proof.
  unfold video_resume, video_catch.
  destruct c as [res|e]; [destruct (fields res) as [r|];
    [destruct (truthyb _)|]|]; cbn [Reach.polite]; tauto.
Qed.

Lemma polite_create_video_step (sid : option string) (s : Settings) :
  Reach.polite (create_video_step sid s).
Proof.
  unfold create_video_step, videoAPI.createVideo. cbn [Reach.polite].
  destruct sid as [[|c sid]|]; cbn [Reach.polite];
    try apply polite_video_resume.
  split; [reflexivity|]. intros o. apply polite_video_resume.
Qed.

Lemma polite_script_resume (sid : option string) (s : Settings)
      (c : Completion ApiResult) :
  Reach.polite (script_resume sid s c).
Proof.
  unfold script_resume, script_catch.
  destruct c as [res|e]; [destruct (fields res) as [r|];
    [destruct (negb _)|]|]; cbn [Reach.polite]; try tauto.
  split; [apply polite_create_video_step | exact I].
Qed.

Lemma polite_refresh_resume (c : Completion ApiResult) :
  Reach.polite (refresh_resume c).
Proof.
  unfold refresh_resume.
  destruct c as [res|e]; [destruct (fields res) as [r|]|];
    cbn [Reach.polite]; tauto.
Qed.

Lemma polite_refreshSessionData (g : GenerationData) :
  Reach.polite (refreshSessionData g).
Proof.
  unfold refreshSessionData, videoAPI.getSessionData.
  destruct (sessionId g) as [[|c sid]|]; cbn [Reach.polite];
    try apply polite_refresh_resume.
  split; [reflexivity|]. intros o. apply polite_refresh_resume.
Qed.

Lemma polite_handlers (w : World) (e : Event) :
  match e with
  | SubmitUrl u => Reach.polite (handleUrlSubmit u)
  | ChangeSettings s => Reach.polite (Do (setSettings s) Done)
  | ConfirmSettings s =>
      Reach.polite (handleSettingsConfirm (generationData w) s)
  | Back => Reach.polite (Do (setCurrentStep input) Done)
  | Reset => Reach.polite handleReset
  | Download => Reach.polite (handleDownload (generationData w))
  | Settles _ _ | Fires _ => True
  end.
Proof.
  destruct e as [u|s|s| | | |i o|i]; try exact I; try (cbn; tauto).
  - unfold handleUrlSubmit, videoAPI.scrapeProduct. cbn [Reach.polite].
    split; [reflexivity|]. intros o. apply polite_scrape_resume.
  - unfold handleSettingsConfirm, videoAPI.generateScript.
    destruct (sessionId (generationData w)) as [[|c sid]|];
      cbn [negb truthy Reach.polite]; try tauto.
    split; [reflexivity|]. intros o. apply polite_script_resume.
  - unfold handleDownload.
    destruct (sessionId (generationData w)) as [[|c sid]|];
      cbn [Reach.polite]; tauto.
Qed.

Lemma run_polite (p : Prog Action) :
  forall w : World,
    Reach.polite p -> Reach.polite_world w -> Reach.polite_world (run p w).
Proof.
  induction p as [|a k IH|req k IH|ms callback _ k IH];
    intros w Hp (Hsent & Hcalls & Htimers); cbn [run Reach.polite] in *.
  - exact (conj Hsent (conj Hcalls Htimers)).
  - apply IH; [exact Hp|].
    unfold Reach.polite_world, perform. cbn [effects inflight timers].
    split; [|split; assumption].
    rewrite requests_app. cbn. now rewrite app_nil_r.
  - destruct Hp as [Hreq Hk].
    unfold Reach.polite_world, suspend. cbn [effects inflight timers].
    split; [|split; [|exact Htimers]].
    + rewrite requests_app, forallb_app, Hsent. cbn. now rewrite Hreq.
    + apply Forall_app. split; [exact Hcalls|]. now constructor.
  - destruct Hp as [Hcb Hk]. apply IH; [exact Hk|].
    unfold Reach.polite_world, schedule. cbn [effects inflight timers].
    split; [exact Hsent|]. split; [exact Hcalls|].
    apply Forall_app. split; [exact Htimers|]. now constructor.
Qed.

Lemma dispatch_polite (w : World) (e : Event) :
  Reach.polite_world w -> Reach.polite_world (dispatch w e).
Proof.
  intros Hw.
  assert (Hh : Reach.polite_world (handle w e)).
  { pose proof (polite_handlers w e) as He.
    destruct e as [u|s|s| | | |i o|i]; cbn [handle];
      try (now apply run_polite).
    - destruct (nth_error (inflight w) i) as [[req k]|] eqn:Hn;
        [|exact Hw].
      destruct Hw as (Hsent & Hcalls & Htimers).
      pose proof (Forall_nth_error _ _ _ _ Hcalls Hn o) as Hk.
      apply run_polite; [exact Hk|].
      unfold Reach.polite_world, settle. cbn [effects inflight timers].
      split; [exact Hsent|]. split; [|exact Htimers].
      now apply Forall_remove_nth.
    - destruct (nth_error (timers w) i) as [[ms callback]|] eqn:Hn;
        [|exact Hw].
      destruct Hw as (Hsent & Hcalls & Htimers).
      pose proof (Forall_nth_error _ _ _ _ Htimers Hn) as Hk.
      apply run_polite; [exact Hk|].
      unfold Reach.polite_world, expire. cbn [effects inflight timers].
      split; [exact Hsent|]. split; [exact Hcalls|].
      now apply Forall_remove_nth. }
  unfold dispatch, useEffect_refresh.
  destruct (_ && _); [exact Hh|].
  destruct (_ && _); [|exact Hh].
  apply run_polite; [apply polite_refreshSessionData | exact Hh].
Qed.

Lemma dispatch_all_polite (es : list Event) :
  forall w : World,
    Reach.polite_world w -> Reach.polite_world (dispatch_all w es).
Proof.
  induction es as [|e es IH]; intros w Hw; [exact Hw|].
  rewrite dispatch_all_cons. apply IH. now apply dispatch_polite.
Qed.

(** X18. Whatever the user does and however the calls and timers settle,
    every request that the component ever sends names its session: a
    script or video request carries a non-empty [session_id] field and a
    read of the session record a non-empty id.  The backend is never
    called for a session that the component does not have. *)
Theorem requests_name_their_session (es : list Event) :
  forallb Reach.names_its_session
    (requests (effects (dispatch_all mounted es))) = true.
Proof.
  assert (H0 : Reach.polite_world mounted)
    by (unfold Reach.polite_world; simpl; repeat split; constructor).
  exact (proj1 (dispatch_all_polite es mounted H0)).
Qed.
